(** * local_semantic_db: a CRUD facade over an embedding model and a vector store

    Shallow embedding of [src/local_semantic_db.py] (class [local_semantic_db])
    and the properties its specification states about it.

    The class is Python: arguments are dynamically typed and the facade
    dispatches on their run-time shape, so arguments are values of [pyval].
    The facade talks to two third-party collaborators, the sentence
    embedder (SentenceTransformer) and the vector collection (chromadb);
    neither is part of the repository.  The embedder, the source of random
    UUIDs and the nearest-neighbour search are taken as parameters (class
    [Collaborators]); the collection's upsert/get/delete are modelled from
    the collaborator contract of the specification. *)

From Stdlib Require Import ZArith NArith Ascii String.
From stdpp Require Import gmap strings list fin_maps sorting.

Local Open Scope string_scope.

#[local] Set Warnings "-register-all".

(* ===================================================================== *)
(** ** Python values *)
(* ===================================================================== *)

(** Metadata values: the scalars the vector collection accepts. *)
Inductive scalar : Type :=
| SStr (s : string)
| SInt (z : Z)
| SBool (b : bool).

#[global] Instance scalar_eq_dec : EqDecision scalar.
Proof. solve_decision. Defined.

(** The run-time values the facade can be handed.  [PyUUID] is a
    [uuid.UUID] object (what [uuid.uuid4()] returns), as opposed to its
    [str(...)] rendering, which is a [PyStr]. *)
Inductive pyval : Type :=
| PyNone
| PyBool (b : bool)
| PyInt (z : Z)
| PyStr (s : string)
| PyUUID (u : N)
| PyList (l : list pyval)
| PyDict (d : gmap string scalar).

(** Python truthiness: [if x], [not x]. *)
Definition py_truthy (v : pyval) : bool :=
  match v with
  | PyNone => false
  | PyBool b => b
  | PyInt z => negb (z =? 0)%Z
  | PyStr s => negb (String.eqb s EmptyString)
  | PyUUID _ => true
  | PyList l => match l with [] => false | _ :: _ => true end
  | PyDict d => negb (bool_decide (d = ∅))
  end.

(** [x is None] *)
Definition is_none (v : pyval) : bool :=
  match v with PyNone => true | _ => false end.

(** [type(x) is list], [isinstance(x, list)] *)
Definition is_list (v : pyval) : bool :=
  match v with PyList _ => true | _ => false end.

Definition is_str (v : pyval) : bool :=
  match v with PyStr _ => true | _ => false end.

(** a metadata argument of the documented type: a mapping, or absent *)
Definition is_metadata (v : pyval) : bool :=
  match v with PyNone | PyDict _ => true | _ => false end.

(** [len(x)]; [None] stands for the TypeError on an unsized object. *)
Definition py_len (v : pyval) : option nat :=
  match v with
  | PyStr s => Some (String.length s)
  | PyList l => Some (length l)
  | PyDict d => Some (size d)
  | _ => None
  end.

(* ===================================================================== *)
(** ** Exceptions *)
(* ===================================================================== *)

(** The source raises [ValueError] at six places; they differ in the
    message only.  [NoEntryFound] carries the id the message prints. *)
Inductive value_error : Type :=
| TextEmpty               (* "The text content cannot be None." *)
| TextsNotNonEmptyList    (* "The 'texts' parameter must be a non-empty list of strings." *)
| TextIdsLength           (* "The number of 'text_ids' must match the number of 'texts'." *)
| MetadatasLength         (* "The number of 'metadatas' must match the number of 'texts'." *)
| NoEntryFound (text_id : pyval)  (* "No entry found with ID: ..." *)
| TextIdNone.             (* "Must use valid text_id, text_id should not be None" *)

Inductive exn : Type :=
| ValueError (why : value_error)
| TypeError
| IndexError
| CollaboratorError.   (* anything the embedder or the collection raises *)

(** The error kinds of the specification (section 7). *)
Inductive error_kind : Type :=
| ValidationError
| NotFoundError
| CollaboratorFailure
| RuntimeFault.

Definition kind_of (e : exn) : error_kind :=
  match e with
  | ValueError (NoEntryFound _) => NotFoundError
  | ValueError _ => ValidationError
  | CollaboratorError => CollaboratorFailure
  | TypeError | IndexError => RuntimeFault
  end.

Inductive outcome (A : Type) : Type :=
| Return (a : A)
| Raise (e : exn).
Arguments Return {A} a.
Arguments Raise {A} e.

(* ===================================================================== *)
(** ** Collaborators *)
(* ===================================================================== *)

(** What the collection keeps under one id. *)
Record record (emb : Type) : Type := Rec {
  rec_embedding : option emb;     (* [None]: upserted without an embedding *)
  rec_document : pyval;           (* a [PyStr] *)
  rec_metadata : pyval            (* a [PyDict], or [PyNone] *)
}.
Arguments Rec {emb} _ _ _.
Arguments rec_embedding {emb} _.
Arguments rec_document {emb} _.
Arguments rec_metadata {emb} _.

(** The answer of [collection.query]: nested sequences, the outer index
    ranging over the query embeddings. *)
Record query_results (dist : Type) : Type := QueryResults {
  qr_ids : list (list pyval);
  qr_documents : list (list pyval);
  qr_metadatas : option (list (list pyval));   (* [results.get("metadatas")] *)
  qr_distances : list (list dist)
}.
Arguments QueryResults {dist} _ _ _ _.
Arguments qr_ids {dist} _.
Arguments qr_documents {dist} _.
Arguments qr_metadatas {dist} _.
Arguments qr_distances {dist} _.

(** The parts of the collaborators the facade does not determine:
    - [encode]: the sentence embedder on one text;
    - [encode_other]: what the embedder answers when [embed_text] hands it
      a value that is not a text ([None] when it raises);
    - [encode_batch_other]: what it answers when [embed_texts] hands it a
      list that does not hold texts only ([None] when it raises);
    - [uuid4]: the 128-bit values successive [uuid.uuid4()] calls yield;
    - [nearest]: the collection's nearest-neighbour search on its current
      content, the query embeddings, [n_results] and the optional [where]
      filter ([None] when the collection raises). *)
Class Collaborators : Type := {
  embedding : Type;
  encode : string -> embedding;
  encode_other : pyval -> option embedding;
  encode_batch_other : list pyval -> option (list embedding);
  uuid4 : nat -> N;
  distance : Type;
  nearest : gmap string (record embedding) -> list embedding -> Z ->
            option pyval -> option (query_results distance)
}.

(* ===================================================================== *)
(** ** str(uuid) *)
(* ===================================================================== *)

Definition hex_digit (n : N) : ascii :=
  match n with
  | 0%N => "0" | 1%N => "1" | 2%N => "2" | 3%N => "3"
  | 4%N => "4" | 5%N => "5" | 6%N => "6" | 7%N => "7"
  | 8%N => "8" | 9%N => "9" | 10%N => "a" | 11%N => "b"
  | 12%N => "c" | 13%N => "d" | 14%N => "e" | _ => "f"
  end%char.

(** The [width] low hexadecimal digits of [v], most significant first. *)
Fixpoint hex (width : nat) (v : N) : string :=
  match width with
  | O => EmptyString
  | S k => hex k (N.shiftr v 4) +:+ String (hex_digit (N.land v 15)) EmptyString
  end.

(** [str(u)] for a [uuid.UUID]: 8-4-4-4-12 lowercase hexadecimal digits. *)
Definition uuid_str (u : N) : string :=
  hex 8 (N.shiftr u 96) +:+ "-" +:+ hex 4 (N.shiftr u 80) +:+ "-" +:+
  hex 4 (N.shiftr u 64) +:+ "-" +:+ hex 4 (N.shiftr u 48) +:+ "-" +:+
  hex 12 u.

(* ===================================================================== *)
(** ** The world: collection content, randomness, collaborator calls *)
(* ===================================================================== *)

(** Every call the facade makes on a collaborator, with its arguments.
    [print] output is a side channel and is not modelled. *)
Inductive call (emb : Type) : Type :=
| Encode (texts : pyval)
| Upsert (ids : pyval) (embeddings : option (list emb))
         (documents : pyval) (metadatas : pyval)
| Get (ids : list pyval)
| Delete (ids : list pyval)
| Query (query_embeddings : list emb) (n_results : Z) (where_ : option pyval).
Arguments Encode {emb} _.
Arguments Upsert {emb} _ _ _ _.
Arguments Get {emb} _.
Arguments Delete {emb} _.
Arguments Query {emb} _ _ _.

Definition is_store_call {emb} (c : call emb) : bool :=
  match c with Encode _ => false | _ => true end.

Definition is_embedder_call {emb} (c : call emb) : bool :=
  match c with Encode _ => true | _ => false end.

(** The facade object after [__init__] with a collection name (the default
    is "my_collection"): [self.collection] is the active collection.
    [trace] lists the collaborator calls made so far, oldest first. *)
Record world `{Collaborators} : Type := World {
  collection : gmap string (record embedding);
  uuid_draws : nat;
  trace : list (call embedding)
}.
Arguments World {_} _ _ _.

(** Python statements: state passing with exceptions.  The state a
    statement reached when it raised is kept. *)
Definition py `{Collaborators} (A : Type) : Type := world -> outcome A * world.

Section Monad.
Context `{Collaborators}.

Definition ret {A} (a : A) : py A := fun w => (Return a, w).

Definition raise {A} (e : exn) : py A := fun w => (Raise e, w).

Definition bind {A B} (m : py A) (k : A -> py B) : py B :=
  fun w => match m w with
           | (Return a, w') => k a w'
           | (Raise e, w') => (Raise e, w')
           end.

(** the world after one more collaborator call *)
Definition logged (c : call embedding) (w : world) : world :=
  World (collection w) (uuid_draws w) (trace w ++ [c]).

Definition log (c : call embedding) : py unit :=
  fun w => (Return tt, logged c w).

(** [uuid.uuid4()] *)
Definition uuid4_draw : py N :=
  fun w => (Return (uuid4 (uuid_draws w)),
            World (collection w) (S (uuid_draws w)) (trace w)).

(** a pure computation that may raise *)
Definition lift {A} (o : outcome A) : py A := fun w => (o, w).
End Monad.

Declare Scope py_scope.
Delimit Scope py_scope with py.
Notation "x <- m ;; k" := (bind m (fun x => k))
  (at level 100, m at next level, right associativity) : py_scope.
Notation "m ;; k" := (bind m (fun _ => k))
  (at level 100, right associativity) : py_scope.
Local Open Scope py_scope.

(* ===================================================================== *)
(** ** The vector collection *)
(* ===================================================================== *)

Section Collection.
Context `{Collaborators}.

Definition as_id (v : pyval) : option string :=
  match v with PyStr s => Some s | _ => None end.

Definition as_document (v : pyval) : option pyval :=
  match v with PyStr _ => Some v | _ => None end.

Definition as_metadata (v : pyval) : option pyval :=
  match v with PyDict _ | PyNone => Some v | _ => None end.

(** one or many: a bare string stands for the list that holds it *)
Definition one_or_many (v : pyval) : pyval :=
  match v with PyStr _ => PyList [v] | _ => v end.

(** The parallel sequences of one upsert, zipped into rows; [None] when
    the call is refused: the sequences are not of one length, an element
    has the wrong type, or an id is named twice.  A bare mapping given as
    metadatas stands for the list that holds it. *)
Definition upsert_rows (ids : pyval) (embeddings : option (list embedding))
    (documents metadatas : pyval) : option (list (string * record embedding)) :=
  match one_or_many ids, one_or_many documents with
  | PyList ids, PyList documents =>
      ks ← mapM as_id ids;
      ds ← mapM as_document documents;
      ms ← match metadatas with
           | PyNone => Some (replicate (length ks) PyNone)
           | PyList ms => mapM as_metadata ms
           | PyDict _ => Some [metadatas]
           | _ => None
           end;
      let es := match embeddings with
                | None => replicate (length ks) None
                | Some es => Some <$> es
                end in
      if bool_decide (length ds = length ks ∧ length ms = length ks
                      ∧ length es = length ks ∧ NoDup ks)
      then Some (zip ks (zip_with (fun e dm => Rec e dm.1 dm.2) es (zip ds ms)))
      else None
  | _, _ => None
  end.

Definition put_row (m : gmap string (record embedding))
    (row : string * record embedding) : gmap string (record embedding) :=
  <[row.1 := row.2]> m.

(** Modelled from the spec: the Vector Collection Store's
    [upsert(ids, embeddings, documents, metadatas?)] is not under src/
    (it is chromadb's).  Section 6: replaces-by-id semantics, parallel
    ordered sequences of equal length, [metadatas] may be entirely absent.
    Ids and documents are strings (section 3).  Where the specification
    is silent the model does what chromadb does: a call that names an id
    twice is refused (section 9 leaves the outcome to the store), and a
    bare string or mapping is taken for the one-element list.  The
    facade's [update] passes no embeddings, which leaves the row's
    [rec_embedding] at [None]. *)
Definition coll_upsert (ids : pyval) (embeddings : option (list embedding))
    (documents metadatas : pyval) : py unit :=
  log (Upsert ids embeddings documents metadatas) ;;
  match upsert_rows ids embeddings documents metadatas with
  | Some rows =>
      fun w => (Return tt,
                World (foldl put_row (collection w) rows) (uuid_draws w) (trace w))
  | None => raise CollaboratorError
  end.

(** The answer of [collection.get]. *)
Record get_results : Type := GetResults {
  gr_documents : list pyval;
  gr_metadatas : list pyval
}.

(** Modelled from the spec: the store's [get(ids) -> {documents,
    metadatas}] is not under src/.  The records found, in the order
    asked. *)
Definition coll_get (ids : list pyval) : py get_results :=
  log (Get ids) ;;
  match mapM as_id ids with
  | Some ks =>
      fun w =>
        let found := omap (fun k => collection w !! k) ks in
        (Return (GetResults (rec_document <$> found) (rec_metadata <$> found)), w)
  | None => raise CollaboratorError
  end.

(** Modelled from the spec: the store's [delete(ids)] is not under
    src/.  Absent ids are skipped silently. *)
Definition coll_delete (ids : list pyval) : py unit :=
  log (Delete ids) ;;
  match mapM as_id ids with
  | Some ks =>
      fun w => (Return tt,
                World (foldl (fun m k => base.delete k m) (collection w) ks)
                      (uuid_draws w) (trace w))
  | None => raise CollaboratorError
  end.

(** [collection.query] on the keyword arguments in [query_params]:
    delegated to [nearest]. *)
Definition coll_query (query_embeddings : list embedding) (n_results : Z)
    (where_ : option pyval) : py (query_results distance) :=
  log (Query query_embeddings n_results where_) ;;
  fun w => match nearest (collection w) query_embeddings n_results where_ with
           | Some r => (Return r, w)
           | None => (Raise CollaboratorError, w)
           end.
End Collection.

(* ===================================================================== *)
(** ** The facade: class local_semantic_db *)
(* ===================================================================== *)

(** What [get] returns: the dict with keys "id", "text", "metadata". *)
Record entry : Type := Entry {
  entry_id : pyval;
  entry_text : pyval;
  entry_metadata : pyval
}.

(** One element of what [query] returns: the dict with keys "id", "text",
    "metadata", "distance". *)
Record item (dist : Type) : Type := Item {
  item_id : pyval;
  item_text : pyval;
  item_metadata : pyval;
  item_distance : dist
}.
Arguments Item {dist} _ _ _ _.
Arguments item_id {dist} _.
Arguments item_text {dist} _.
Arguments item_metadata {dist} _.
Arguments item_distance {dist} _.

(** [l[i]] for [i >= 0] *)
Definition index {A} (l : list A) (i : nat) : outcome A :=
  match l !! i with
  | Some x => Return x
  | None => Raise IndexError
  end.

Definition obind {A B} (o : outcome A) (k : A -> outcome B) : outcome B :=
  match o with
  | Return a => k a
  | Raise e => Raise e
  end.

Module local_semantic_db.
Section Facade.
Context `{Collaborators}.

(** what the embedder answers, or its failure *)
Definition answer_of {A} (o : option A) : py A :=
  match o with
  | Some a => ret a
  | None => raise CollaboratorError
  end.

(** [self.embedding_model.encode(text).tolist()] *)
Definition embed_text (text : pyval) : py embedding :=
  log (Encode text) ;;
  match text with
  | PyStr s => ret (encode s)
  | _ => answer_of (encode_other text)
  end.

Definition as_text (v : pyval) : option string :=
  match v with PyStr s => Some s | _ => None end.

(** [self.embedding_model.encode(texts, ...).tolist()]: one embedding per
    text, in order.  [batch_insert] is the only caller and hands it a
    list. *)
Definition embed_texts (texts : pyval) : py (list embedding) :=
  log (Encode texts) ;;
  match texts with
  | PyList ts =>
      match mapM as_text ts with
      | Some ss => ret (encode <$> ss)
      | None => answer_of (encode_batch_other ts)
      end
  | _ => answer_of (encode_batch_other [texts])
  end.

(** [str(uuid.uuid4())] *)
Definition fresh_id : py pyval :=
  u <- uuid4_draw ;; ret (PyStr (uuid_str u)).

(** [[str(uuid.uuid4()) for _ in texts]] *)
Fixpoint fresh_ids {A} (texts : list A) : py (list pyval) :=
  match texts with
  | [] => ret []
  | _ :: rest => i <- fresh_id ;; more <- fresh_ids rest ;; ret (i :: more)
  end.

(** The loop of lines 86-90: [text_ids[i] = uuid.uuid4()] wherever
    [item is None].  The list is updated in place and is the one
    returned; the model returns the updated list. *)
Fixpoint fill_ids (text_ids : list pyval) : py (list pyval) :=
  match text_ids with
  | [] => ret []
  | item :: rest =>
      item' <- (if is_none item
                then u <- uuid4_draw ;; ret (PyUUID u)
                else ret item) ;;
      rest' <- fill_ids rest ;;
      ret (item' :: rest')
  end.

(** [len(x)] as a statement *)
Definition len (v : pyval) : py nat :=
  match py_len v with
  | Some n => ret n
  | None => raise TypeError
  end.

Definition batch_insert (texts metadatas text_ids : pyval) : py pyval :=
  match texts with
  | PyList ((_ :: _) as ts) =>
      text_ids <- (if is_none text_ids
                   then ids <- fresh_ids ts ;; ret (PyList ids)
                   else n <- len text_ids ;;
                        if bool_decide (n ≠ length ts)
                        then raise (ValueError TextIdsLength)
                        else ret text_ids) ;;
      (* only a list can hold a [None]: iterating a str yields
         characters, iterating a dict yields its keys *)
      text_ids <- (match text_ids with
                   | PyList ids =>
                       if existsb is_none ids
                       then ids' <- fill_ids ids ;; ret (PyList ids')
                       else ret text_ids
                   | _ => ret text_ids
                   end) ;;
      embeddings <- embed_texts texts ;;
      metadatas <- (if is_none metadatas
                    then ret (PyList (replicate (length ts) PyNone))
                    else n <- len metadatas ;;
                         if bool_decide (n ≠ length ts)
                         then raise (ValueError MetadatasLength)
                         else ret metadatas) ;;
      coll_upsert text_ids (Some embeddings) texts metadatas ;;
      ret text_ids
  | _ => raise (ValueError TextsNotNonEmptyList)
  end.

Definition insert (text metadata text_id : pyval) : py pyval :=
  if is_list text && is_list metadata && is_list text_id
  then batch_insert text metadata text_id
  else
    text_id <- (if is_none text_id then fresh_id else ret text_id) ;;
    if negb (py_truthy text) then raise (ValueError TextEmpty) else
    embedding <- embed_text text ;;
    coll_upsert (PyList [text_id]) (Some [embedding]) (PyList [text])
                (if py_truthy metadata then PyList [metadata] else PyNone) ;;
    ret text_id.

(** The loop of lines 146-153 from index [i] on, [n] iterations. *)
Fixpoint flatten_from (results : query_results distance) (i n : nat)
    : outcome (list (item distance)) :=
  match n with
  | O => Return []
  | S n' =>
      obind (obind (index (qr_ids results) 0) (fun l => index l i)) (fun id_ =>
      obind (obind (index (qr_documents results) 0) (fun l => index l i)) (fun text =>
      obind (match qr_metadatas results with
             | Some ((_ :: _) as ms) =>
                 obind (index ms 0) (fun l => index l i)
             | _ => Return PyNone
             end) (fun metadata =>
      obind (obind (index (qr_distances results) 0) (fun l => index l i)) (fun d =>
      obind (flatten_from results (S i) n') (fun rest =>
      Return (Item id_ text metadata d :: rest))))))
  end.

Definition flatten (results : query_results distance)
    : outcome (list (item distance)) :=
  obind (index (qr_ids results) 0) (fun ids0 =>
  flatten_from results 0 (length ids0)).

Definition query (query_text : pyval) (top_k : Z) (where_ : pyval)
    : py (list (item distance)) :=
  embedding <- embed_text query_text ;;
  results <- coll_query [embedding] top_k
               (if py_truthy where_ then Some where_ else None) ;;
  lift (flatten results).

Definition get (text_id : pyval) : py entry :=
  results <- coll_get [text_id] ;;
  if negb (py_truthy (PyList (gr_documents results)))
  then raise (ValueError (NoEntryFound text_id))
  else
    text <- lift (index (gr_documents results) 0) ;;
    metadata <- (if py_truthy (PyList (gr_metadatas results))
                 then lift (index (gr_metadatas results) 0)
                 else ret PyNone) ;;
    ret (Entry text_id text metadata).

Definition delete (text_id : pyval) : py unit :=
  coll_delete [text_id].

Definition update (text_id text metadata : pyval) : py unit :=
  if is_none text_id then raise (ValueError TextIdNone) else
  results <- coll_get [text_id] ;;
  if negb (py_truthy (PyList (gr_documents results)))
  then raise (ValueError (NoEntryFound text_id))
  else
    coll_upsert (PyList [text_id]) None (PyList [text])
                (if py_truthy metadata then PyList [metadata] else PyNone).
End Facade.

(** *** The client and the active collection *)

Section Client.
Context `{Collaborators}.

(** The facade object together with the client it holds, once a
    collection has been set ([__init__] with a collection name, or a call
    of [set_collection]).  [client] is what [self.client] persists: the
    collections by name.  [self.collection] is a handle on one of them; it
    is represented by the name of the collection it refers to, so that
    what is done through the handle is done to the client's collection. *)
Record db : Type := DB {
  client : gmap string (gmap string (record embedding));
  collection_name : string;
  handle : string;
  db_draws : nat;
  db_trace : list (call embedding)
}.

(** Modelled from the spec: the client's [get_or_create_collection(name)]
    is not under src/ (it is chromadb's).  Section 3: collections are
    created on first reference and persist. *)
Definition get_or_create_collection (name : string)
    (c : gmap string (gmap string (record embedding)))
    : gmap string (gmap string (record embedding)) :=
  match c !! name with
  | Some _ => c
  | None => <[name := ∅]> c
  end.

Definition set_collection (name : string) (d : db) : db :=
  DB (get_or_create_collection name (client d)) name name
     (db_draws d) (db_trace d).

(** the world a method sees through [self.collection] *)
Definition active_world (d : db) : world :=
  World (default ∅ (client d !! handle d)) (db_draws d) (db_trace d).

(** A method of the facade, run on the object: it works on the collection
    behind the handle. *)
Definition on_collection {A} (m : py A) (d : db) : outcome A * db :=
  let r := m (active_world d) in
  (r.1, DB (<[handle d := collection r.2]> (client d)) (collection_name d)
           (handle d) (uuid_draws r.2) (trace r.2)).
End Client.
End local_semantic_db.

(* ===================================================================== *)
(** ** Vocabulary of the statements *)
(* ===================================================================== *)

Section Vocabulary.
Context `{Collaborators}.

(** the ids [n], [n+1], ... of the random sequence, as strings *)
Definition ids_from (n len : nat) : list pyval :=
  (fun i => PyStr (uuid_str (uuid4 i))) <$> seq n len.

(** [text_ids] after the loop of lines 86-90, when the next draw is the
    [n]-th *)
Fixpoint filled (n : nat) (text_ids : list pyval) : list pyval :=
  match text_ids with
  | [] => []
  | item :: rest =>
      if is_none item then PyUUID (uuid4 n) :: filled (S n) rest
      else item :: filled n rest
  end.

(** the number of absent slots *)
Definition count_none (text_ids : list pyval) : nat :=
  length (filter (fun v => is_none v = true) text_ids).

(** the world after [n] more draws of [uuid.uuid4()] *)
Definition drawn (w : world) (n : nat) : world :=
  World (collection w) (uuid_draws w + n) (trace w).

(** the ids [batch_insert] goes on with *)
Definition resolved_ids (n len : nat) (text_ids : pyval) : pyval :=
  match text_ids with
  | PyNone => PyList (ids_from n len)
  | PyList ids => PyList (filled n ids)
  | v => v
  end.

(** the number of UUIDs [batch_insert] draws for the ids *)
Definition draws_for (len : nat) (text_ids : pyval) : nat :=
  match text_ids with
  | PyNone => len
  | PyList ids => count_none ids
  | _ => 0
  end.

(** the calls that reached the collection *)
Definition store_calls (w : world) : list (call embedding) :=
  filter (fun c => is_store_call c = true) (trace w).

(** the rows one upsert of [batch_insert] writes *)
Definition batch_rows (ks ss : list string) (mds : list pyval)
    : list (string * record embedding) :=
  zip ks (zip_with (fun e dm => Rec e dm.1 dm.2)
                   (Some <$> (encode <$> ss)) (zip (PyStr <$> ss) mds)).

(** four parallel rows read position by position *)
Fixpoint zip_items (ids docs mds : list pyval) (ds : list distance)
    : list (item distance) :=
  match ids, docs, mds, ds with
  | i :: ids, t :: docs, m :: mds, d :: ds =>
      Item i t m d :: zip_items ids docs mds ds
  | _, _, _, _ => []
  end.

(** [m] never changes the collection *)
Definition keeps {A} (m : py A) : Prop :=
  ∀ w, collection (m w).2 = collection w.

(** [m] leaves the collection as it was whenever it raises *)
Definition safe {A} (m : py A) : Prop :=
  ∀ w e w', m w = (Raise e, w') -> collection w' = collection w.

(** the first row of a nested sequence, empty when there is none *)
Definition first_row {A} (rows : list (list A)) : list A :=
  default [] (rows !! 0).

(** the metadata row [flatten] reads for a query with [n] matches: the
    collection's first row when it returned a metadata array, absent
    values otherwise *)
Definition metadata_row (results : query_results distance) (n : nat)
    : list pyval :=
  match qr_metadatas results with
  | Some (row :: _) => row
  | _ => replicate n PyNone
  end.
End Vocabulary.

(* ===================================================================== *)
(** ** A concrete set of collaborators *)
(* ===================================================================== *)

(** A one-dimensional stand-in used to run the facade on examples: a text
    is embedded as its length and nothing but text is embedded, the
    distance is the absolute difference, [uuid4] counts up, and the search
    sorts the embedded records by distance and keeps [n_results] of them
    (filters are not supported). *)
Module Demo.
Definition closer {A} (a b : Z * A) : Prop := (a.1 ≤ b.1)%Z.

#[export] Instance closer_dec {A} (a b : Z * A) : Decision (closer a b).
Proof. unfold closer. apply _. Defined.

Definition search (coll : gmap string (record Z)) (qs : list Z) (n : Z)
    (where_ : option pyval) : option (query_results Z) :=
  match qs, where_ with
  | [q], None =>
      let cands :=
        omap (fun kr => e ← rec_embedding kr.2; Some (Z.abs (q - e), kr))
             (map_to_list coll) in
      let best := take (Z.to_nat n) (merge_sort closer cands) in
      Some (QueryResults [ (fun c => PyStr c.2.1) <$> best ]
                         [ (fun c => rec_document c.2.2) <$> best ]
                         (Some [ (fun c => rec_metadata c.2.2) <$> best ])
                         [ fst <$> best ])
  | _, _ => None
  end.

#[export] Instance demo : Collaborators := {|
  embedding := Z;
  encode := fun s => Z.of_nat (String.length s);
  encode_other := fun _ => None;
  encode_batch_other := fun _ => None;
  uuid4 := fun n => N.of_nat n;
  distance := Z;
  nearest := search
|}.

(** an empty collection, nothing drawn, nothing called *)
Definition w0 : world := World ∅ 0 [].

Definition alice : pyval := PyDict {[ "name" := SStr "Alice" ]}.

(** the world after [db.insert("hello", metadata={"name": "Alice"},
    text_id="a")] on an empty collection *)
Definition w_alice : world :=
  (local_semantic_db.insert (PyStr "hello") alice (PyStr "a") w0).2.

Definition r_alice : record embedding := Rec (Some 5%Z) (PyStr "hello") alice.

Definition two_texts : pyval := PyList [PyStr "x"; PyStr "y"].

(** two records, the second without metadata *)
Definition w_two : world :=
  (local_semantic_db.batch_insert (PyList [PyStr "a"; PyStr "bbbb"])
     (PyList [alice; PyNone]) (PyList [PyStr "i"; PyStr "j"]) w0).2.

(** what the search answers on [w_two] for the text "bbb" and
    [n_results = 2] *)
Definition answer : query_results distance :=
  QueryResults [[PyStr "j"; PyStr "i"]] [[PyStr "bbbb"; PyStr "a"]]
               (Some [[PyNone; alice]]) [[1%Z; 2%Z]].

(** an answer whose row of documents is shorter than its row of ids *)
Definition ragged : query_results distance :=
  QueryResults [[PyStr "j"; PyStr "i"]] [[PyStr "bbbb"]] None [[1%Z; 2%Z]].

(** the facade object with the collection "interests" active and empty *)
Definition d0 : local_semantic_db.db :=
  local_semantic_db.set_collection "interests"
    (local_semantic_db.DB ∅ "interests" "interests" 0 []).
End Demo.

(* ===================================================================== *)
(** ** Properties *)
(* ===================================================================== *)

Import local_semantic_db.

Example uuid_str_ex :
  uuid_str 0x123e4567e89b42d3a456426614174000%N
  = "123e4567-e89b-42d3-a456-426614174000".
Proof. vm_compute. reflexivity. Qed.

Section Store_lemmas.
Context `{Collaborators}.

Lemma coll_get_one (k : string) (w : world) :
  coll_get [PyStr k] w =
    (Return (match collection w !! k with
             | Some r => GetResults [rec_document r] [rec_metadata r]
             | None => GetResults [] []
             end),
     logged (Get [PyStr k]) w).
Proof.
  unfold coll_get, bind, log. simpl.
  destruct (collection w !! k); reflexivity.
Qed.

(** one row, with a document and a metadata entry of the right types *)
Lemma coll_upsert_one (k : string) (e : option embedding)
    (doc md : pyval) (w : world) :
  as_document doc = Some doc ->
  is_metadata md = true ->
  coll_upsert (PyList [PyStr k]) ((fun x => [x]) <$> e) (PyList [doc])
              (if py_truthy md then PyList [md] else PyNone) w =
    (Return tt,
     World (<[k := Rec e doc (if py_truthy md then md else PyNone)]> (collection w))
           (uuid_draws w)
           (trace w ++ [Upsert (PyList [PyStr k]) ((fun x => [x]) <$> e) (PyList [doc])
                               (if py_truthy md then PyList [md] else PyNone)])).
Proof.
  intros Hd Hm. unfold coll_upsert, bind, log, logged, upsert_rows. simpl.
  rewrite Hd. simpl.
  destruct md; try discriminate; destruct e; simpl; try reflexivity;
    destruct (negb (bool_decide (d = ∅))); reflexivity.
Qed.
End Store_lemmas.

Section Facade_lemmas.
Context `{Collaborators}.

Lemma truthy_str (s : string) : s ≠ EmptyString -> py_truthy (PyStr s) = true.
Proof. intros Hs. simpl. apply negb_true_iff, String.eqb_neq, Hs. Qed.

Lemma get_found (k : string) (r : record embedding) (w : world) :
  collection w !! k = Some r ->
  get (PyStr k) w =
    (Return (Entry (PyStr k) (rec_document r) (rec_metadata r)),
     logged (Get [PyStr k]) w).
Proof.
  intros Hk. unfold get, bind. rewrite coll_get_one, Hk. reflexivity.
Qed.

Lemma get_missing (k : string) (w : world) :
  collection w !! k = None ->
  get (PyStr k) w =
    (Raise (ValueError (NoEntryFound (PyStr k))), logged (Get [PyStr k]) w).
Proof.
  intros Hk. unfold get, bind. rewrite coll_get_one, Hk. reflexivity.
Qed.

Lemma update_missing (k : string) (text metadata : pyval) (w : world) :
  collection w !! k = None ->
  update (PyStr k) text metadata w =
    (Raise (ValueError (NoEntryFound (PyStr k))), logged (Get [PyStr k]) w).
Proof.
  intros Hk. unfold update. cbn [is_none].
  unfold bind. rewrite coll_get_one, Hk. reflexivity.
Qed.

(** what [update] passes to the collection, and what the collection
    holds afterwards *)
Lemma update_found (k : string) (text metadata : pyval)
    (r : record embedding) (w : world) :
  collection w !! k = Some r ->
  as_document text = Some text ->
  is_metadata metadata = true ->
  update (PyStr k) text metadata w =
    (Return tt,
     World (<[k := Rec None text (if py_truthy metadata then metadata else PyNone)]>
              (collection w))
           (uuid_draws w)
           (trace w ++ [Get [PyStr k];
                        Upsert (PyList [PyStr k]) None (PyList [text])
                               (if py_truthy metadata then PyList [metadata]
                                else PyNone)])).
Proof.
  intros Hk Hd Hm. unfold update. cbn [is_none].
  unfold bind. rewrite coll_get_one, Hk. simpl.
  pose proof (coll_upsert_one k None text metadata
                (logged (Get [PyStr k]) w) Hd Hm) as E.
  simpl in E. rewrite E. rewrite <- app_assoc. reflexivity.
Qed.

(** the single-record path of [insert] with the caller's id *)
Lemma insert_with_id (s k : string) (metadata : pyval) (w : world) :
  s ≠ EmptyString ->
  is_metadata metadata = true ->
  insert (PyStr s) metadata (PyStr k) w =
    (Return (PyStr k),
     World (<[k := Rec (Some (encode s)) (PyStr s)
                       (if py_truthy metadata then metadata else PyNone)]>
              (collection w))
           (uuid_draws w)
           (trace w ++ [Encode (PyStr s);
                        Upsert (PyList [PyStr k]) (Some [encode s]) (PyList [PyStr s])
                               (if py_truthy metadata then PyList [metadata]
                                else PyNone)])).
Proof.
  intros Hs Hm. unfold insert. cbn [is_list andb].
  unfold bind at 1. cbn [is_none]. unfold ret at 1.
  rewrite (truthy_str s Hs). cbn [negb].
  unfold bind, embed_text, log. simpl.
  pose proof (coll_upsert_one k (Some (encode s)) (PyStr s) metadata
                (logged (Encode (PyStr s)) w) eq_refl Hm) as E.
  simpl in E. rewrite E. rewrite <- app_assoc. reflexivity.
Qed.

(** the single-record path of [insert] without an id *)
Lemma insert_without_id (s : string) (metadata : pyval) (w : world) :
  s ≠ EmptyString ->
  is_metadata metadata = true ->
  let k := uuid_str (uuid4 (uuid_draws w)) in
  insert (PyStr s) metadata PyNone w =
    (Return (PyStr k),
     World (<[k := Rec (Some (encode s)) (PyStr s)
                       (if py_truthy metadata then metadata else PyNone)]>
              (collection w))
           (S (uuid_draws w))
           (trace w ++ [Encode (PyStr s);
                        Upsert (PyList [PyStr k]) (Some [encode s]) (PyList [PyStr s])
                               (if py_truthy metadata then PyList [metadata]
                                else PyNone)])).
Proof.
  intros Hs Hm k. unfold insert. cbn [is_list andb].
  unfold bind at 1. cbn [is_none].
  unfold fresh_id, bind at 1, uuid4_draw, ret at 1.
  rewrite (truthy_str s Hs). cbn [negb].
  unfold bind, embed_text, log. simpl.
  pose proof (coll_upsert_one k (Some (encode s)) (PyStr s) metadata
                (logged (Encode (PyStr s))
                   (World (collection w) (S (uuid_draws w)) (trace w)))
                eq_refl Hm) as E.
  simpl in E. fold k. rewrite E. rewrite <- app_assoc. reflexivity.
Qed.
End Facade_lemmas.

Section Claims_single_record.
Context `{Collaborators}.

Lemma delete_missing (k : string) (w : world) :
  collection w !! k = None ->
  delete (PyStr k) w = (Return tt, logged (Delete [PyStr k]) w).
Proof.
  intros Hk. unfold delete, coll_delete, bind, log, logged. simpl.
  rewrite (delete_id _ _ Hk). reflexivity.
Qed.

(** C8.  For an id [k] with no record in the active collection, [get]
    and [update] raise the "No entry found" ValueError, which is the
    specification's NotFoundError; [delete] returns normally and leaves
    the collection as it was, and a [get] after it still raises the same
    error. *)
Theorem missing_id_get_update_delete (k : string) (text metadata : pyval)
    (w : world) :
  collection w !! k = None ->
  get (PyStr k) w
    = (Raise (ValueError (NoEntryFound (PyStr k))), logged (Get [PyStr k]) w)
  ∧ update (PyStr k) text metadata w
    = (Raise (ValueError (NoEntryFound (PyStr k))), logged (Get [PyStr k]) w)
  ∧ kind_of (ValueError (NoEntryFound (PyStr k))) = NotFoundError
  ∧ delete (PyStr k) w = (Return tt, logged (Delete [PyStr k]) w)
  ∧ collection (delete (PyStr k) w).2 = collection w
  ∧ (get (PyStr k) (delete (PyStr k) w).2).1
    = Raise (ValueError (NoEntryFound (PyStr k))).
Proof.
  intros Hk. split; [| split; [| split; [| split; [| split]]]].
  - apply get_missing, Hk.
  - apply update_missing, Hk.
  - reflexivity.
  - apply delete_missing, Hk.
  - rewrite (delete_missing k w Hk). reflexivity.
  - rewrite (delete_missing k w Hk). cbn [snd].
    rewrite get_missing by exact Hk. reflexivity.
Qed.

(** C9, amended.  [update] on an existing id with [text] absent is not
    rejected by the facade: after the existence check it sends the
    collection one upsert of the id, the absent text and the metadata of
    the call, nothing of the stored record being merged in.  The
    collection refuses a document that is not a string, so the call fails
    with the collection's error, and the record keeps its text and
    metadata. *)
Theorem update_without_text (k : string) (metadata : pyval)
    (r : record embedding) (w : world) :
  collection w !! k = Some r ->
  let sent := if py_truthy metadata then PyList [metadata] else PyNone in
  ∃ w', update (PyStr k) PyNone metadata w = (Raise CollaboratorError, w')
        ∧ kind_of CollaboratorError = CollaboratorFailure
        ∧ trace w'
          = (trace w ++ [Get [PyStr k];
                         Upsert (PyList [PyStr k]) None (PyList [PyNone]) sent])%list
        ∧ collection w' = collection w
        ∧ (get (PyStr k) w').1
          = Return (Entry (PyStr k) (rec_document r) (rec_metadata r)).
Proof.
  intros Hk sent.
  assert (E : update (PyStr k) PyNone metadata w
              = (Raise CollaboratorError,
                 logged (Upsert (PyList [PyStr k]) None (PyList [PyNone]) sent)
                        (logged (Get [PyStr k]) w))).
  { unfold update. cbn [is_none]. unfold bind at 1.
    rewrite coll_get_one, Hk. cbn [gr_documents py_truthy negb].
    unfold coll_upsert, bind, log, upsert_rows. reflexivity. }
  eexists. split; [exact E |]. split; [reflexivity |]. split; [| split].
  - unfold logged. cbn [trace]. rewrite <- app_assoc. reflexivity.
  - reflexivity.
  - rewrite (get_found k r); [reflexivity | exact Hk].
Qed.

(** C1 (the code departs from it).  [update] on an existing id with a
    text hands the collection the id, the document and the metadata and
    no embedding: the embedder is not called, and the record's embedding
    is not the embedder's [encode] of the new text, which is what
    [insert] stores for the same arguments. *)
Theorem update_passes_no_embedding (k s : string) (metadata : pyval)
    (r : record embedding) (w : world) :
  collection w !! k = Some r ->
  s ≠ EmptyString ->
  is_metadata metadata = true ->
  let m := if py_truthy metadata then metadata else PyNone in
  ∃ w', update (PyStr k) (PyStr s) metadata w = (Return tt, w')
        ∧ filter (fun c => is_embedder_call c = true) (trace w')
          = filter (fun c => is_embedder_call c = true) (trace w)
        ∧ collection w' !! k = Some (Rec None (PyStr s) m)
        ∧ collection (insert (PyStr s) metadata (PyStr k) w).2 !! k
          = Some (Rec (Some (encode s)) (PyStr s) m).
Proof.
  intros Hk Hs Hm m. eexists. split; [| split; [| split]].
  - apply (update_found k (PyStr s) metadata r w Hk eq_refl Hm).
  - cbn [trace]. rewrite filter_app. cbn. apply app_nil_r.
  - cbn [collection]. apply lookup_insert_eq.
  - rewrite (insert_with_id s k metadata w Hs Hm). cbn [snd collection].
    apply lookup_insert_eq.
Qed.

(** C3, amended.  [insert] of a non-empty text with metadata that is a
    mapping or absent, and an id that is a string or absent, returns the
    id it used: the caller's, or [str(uuid.uuid4())]; a [get] on that id
    then returns the text given, and the metadata given when it is a
    non-empty mapping, absent otherwise. *)
Theorem insert_then_get (s : string) (metadata text_id : pyval) (w : world) :
  s ≠ EmptyString ->
  is_metadata metadata = true ->
  text_id = PyNone ∨ is_str text_id = true ->
  let effective := if is_none text_id
                   then PyStr (uuid_str (uuid4 (uuid_draws w)))
                   else text_id in
  ∃ w' w'',
    insert (PyStr s) metadata text_id w = (Return effective, w')
    ∧ get effective w'
      = (Return (Entry effective (PyStr s)
                       (if py_truthy metadata then metadata else PyNone)), w'').
Proof.
  intros Hs Hm [-> | Hid] effective.
  - do 2 eexists. split.
    + apply (insert_without_id s metadata w Hs Hm).
    + subst effective. cbn [is_none].
      rewrite (get_found _ (Rec (Some (encode s)) (PyStr s)
                 (if py_truthy metadata then metadata else PyNone)));
        [reflexivity |].
      cbn [collection]. apply lookup_insert_eq.
  - destruct text_id; try discriminate. rename s0 into k.
    do 2 eexists. split.
    + apply (insert_with_id s k metadata w Hs Hm).
    + subst effective. cbn [is_none].
      rewrite (get_found k (Rec (Some (encode s)) (PyStr s)
                 (if py_truthy metadata then metadata else PyNone)));
        [reflexivity |].
      cbn [collection]. apply lookup_insert_eq.
Qed.
End Claims_single_record.

Section Claims_metadata.
Context `{Collaborators}.

(** Outside the dispatch to [batch_insert], [insert] looks at the metadata
    only through its truthiness; so does [update]. *)
Lemma insert_falsy_metadata (text metadata text_id : pyval) (w : world) :
  py_truthy metadata = false ->
  is_list text && is_list metadata && is_list text_id = false ->
  insert text metadata text_id w = insert text PyNone text_id w.
Proof.
  intros Hf Hd. unfold insert. rewrite Hd, Hf.
  cbn [is_list py_truthy]. rewrite andb_false_r. reflexivity.
Qed.

Lemma update_falsy_metadata (text_id text metadata : pyval) (w : world) :
  py_truthy metadata = false ->
  update text_id text metadata w = update text_id text PyNone w.
Proof. intros Hf. unfold update. rewrite Hf. reflexivity. Qed.

(** a successful single-record [insert] without metadata leaves a record
    without metadata under the id it returns *)
Lemma insert_no_metadata_inv (text text_id r : pyval) (w w' : world) :
  insert text PyNone text_id w = (Return r, w') ->
  ∃ k rcd, r = PyStr k ∧ collection w' !! k = Some rcd
           ∧ rec_metadata rcd = PyNone.
Proof.
  unfold insert. cbn [is_list py_truthy]. rewrite !andb_false_r.
  cbn [andb]. intros E. unfold bind at 1 in E.
  destruct ((if is_none text_id then fresh_id else ret text_id) w)
    as [[id1 | ex] w1]; [| discriminate E].
  destruct (negb (py_truthy text)); [discriminate E |].
  unfold bind at 1 in E.
  destruct (embed_text text w1) as [[e | ex] w2]; [| discriminate E].
  unfold bind at 1 in E.
  destruct (coll_upsert (PyList [id1]) (Some [e]) (PyList [text]) PyNone w2)
    as [[[] | ex] w3] eqn:Eu; [| discriminate E].
  injection E as <- <-.
  unfold coll_upsert, bind, log, logged, upsert_rows in Eu.
  destruct id1 as [ | | | k | | | ]; try (cbn in Eu; discriminate Eu).
  destruct text; cbn in Eu; try discriminate Eu.
  injection Eu as <-. eexists _, _. split; [reflexivity |].
  cbn [collection]. split; [apply lookup_insert_eq | reflexivity].
Qed.

(** a successful [update] without metadata leaves a record without
    metadata under the id *)
Lemma update_no_metadata_inv (text_id text : pyval) (w w' : world) :
  update text_id text PyNone w = (Return tt, w') ->
  ∃ k rcd, text_id = PyStr k ∧ collection w' !! k = Some rcd
           ∧ rec_metadata rcd = PyNone.
Proof.
  unfold update.
  destruct text_id as [ | b | z | k | u | l | d ];
    try (cbn; intros E; discriminate E).
  cbn [is_none]. unfold bind at 1. rewrite coll_get_one.
  destruct (collection w !! k) as [r0 |]; [| intros E; discriminate E].
  cbn [py_truthy gr_documents negb].
  destruct text; cbn; intros E; try discriminate E;
    injection E as <-; eexists _, _; (split; [reflexivity |]);
    cbn [collection]; (split; [apply lookup_insert_eq | reflexivity]).
Qed.

(** C10.  When the metadata given to [insert] (on its single-record path)
    or to [update] is falsy (an empty mapping, say), the call does exactly
    what it does with the metadata absent: same result, same collection,
    same collaborator calls; and whenever such a call succeeds, a [get] on
    the id returns the metadata as absent. *)
Theorem falsy_metadata_as_absent (text metadata text_id : pyval) (w : world) :
  py_truthy metadata = false ->
  (is_list text && is_list metadata && is_list text_id = false ->
   insert text metadata text_id w = insert text PyNone text_id w
   ∧ ∀ r w', insert text metadata text_id w = (Return r, w') ->
       ∃ e w'', get r w' = (Return e, w'') ∧ entry_metadata e = PyNone)
  ∧ update text_id text metadata w = update text_id text PyNone w
  ∧ (∀ w', update text_id text metadata w = (Return tt, w') ->
       ∃ e w'', get text_id w' = (Return e, w'') ∧ entry_metadata e = PyNone).
Proof.
  intros Hf. split; [| split ].
  - intros Hd. split; [apply insert_falsy_metadata; assumption |].
    intros r w'. rewrite insert_falsy_metadata by assumption. intros E.
    destruct (insert_no_metadata_inv _ _ _ _ _ E) as (k & rcd & -> & Hk & Hr).
    eexists _, _. split; [apply (get_found k rcd w' Hk) | exact Hr].
  - apply update_falsy_metadata; assumption.
  - intros w'. rewrite update_falsy_metadata by assumption. intros E.
    destruct (update_no_metadata_inv _ _ _ _ E) as (k & rcd & -> & Hk & Hr).
    eexists _, _. split; [apply (get_found k rcd w' Hk) | exact Hr].
Qed.
End Claims_metadata.

(* --------------------------------------------------------------------- *)
(** *** Running [batch_insert] *)
(* --------------------------------------------------------------------- *)

Section Batch_lemmas.
Context `{Collaborators}.

Lemma bind_return {A B} (m : py A) (k : A -> py B) (w w' : world) (a : A) :
  m w = (Return a, w') -> bind m k w = k a w'.
Proof. intros E. unfold bind. rewrite E. reflexivity. Qed.

Lemma bind_raise {A B} (m : py A) (k : A -> py B) (w w' : world) (e : exn) :
  m w = (Raise e, w') -> bind m k w = (Raise e, w').
Proof. intros E. unfold bind. rewrite E. reflexivity. Qed.

Lemma drawn_0 (w : world) : drawn w 0 = w.
Proof. destruct w. unfold drawn. cbn. rewrite Nat.add_0_r. reflexivity. Qed.

Lemma fresh_ids_run {A} (texts : list A) (w : world) :
  fresh_ids texts w
  = (Return (ids_from (uuid_draws w) (length texts)), drawn w (length texts)).
Proof.
  revert w. induction texts as [| t texts IH]; intros w.
  - cbn. rewrite drawn_0. reflexivity.
  - cbn [fresh_ids]. unfold fresh_id.
    unfold bind at 1. unfold bind at 1. unfold uuid4_draw, ret at 1.
    unfold bind at 1. rewrite IH. unfold ret, drawn, ids_from. cbn.
    rewrite <- Nat.add_succ_comm. reflexivity.
Qed.

Lemma fill_ids_run (text_ids : list pyval) (w : world) :
  fill_ids text_ids w
  = (Return (filled (uuid_draws w) text_ids), drawn w (count_none text_ids)).
Proof.
  revert w. induction text_ids as [| item rest IH]; intros w.
  - cbn. rewrite drawn_0. reflexivity.
  - cbn [fill_ids filled]. unfold count_none. rewrite filter_cons.
    destruct (is_none item) eqn:E.
    + rewrite decide_True by reflexivity.
      unfold bind at 1. unfold bind at 1. unfold uuid4_draw, ret at 1.
      unfold bind at 1. rewrite IH. unfold ret, drawn, count_none. cbn.
      rewrite <- Nat.add_succ_comm. reflexivity.
    + rewrite decide_False by discriminate.
      unfold bind at 1. unfold ret at 1.
      unfold bind at 1. rewrite IH. reflexivity.
Qed.

Lemma filled_no_none (n : nat) (text_ids : list pyval) :
  existsb is_none text_ids = false -> filled n text_ids = text_ids.
Proof.
  induction text_ids as [| item rest IH]; [reflexivity |].
  cbn. intros E. apply orb_false_iff in E as [E1 E2].
  rewrite E1, (IH E2). reflexivity.
Qed.

Lemma count_none_no_none (text_ids : list pyval) :
  existsb is_none text_ids = false -> count_none text_ids = 0.
Proof.
  induction text_ids as [| item rest IH]; [reflexivity |].
  cbn [existsb]. intros E. apply orb_false_iff in E as [E1 E2].
  unfold count_none in *. rewrite filter_cons_False by (rewrite E1; discriminate).
  apply IH, E2.
Qed.

Lemma length_filled (n : nat) (text_ids : list pyval) :
  length (filled n text_ids) = length text_ids.
Proof.
  revert n. induction text_ids as [| item rest IH]; intros n; [reflexivity |].
  cbn. destruct (is_none item); cbn; rewrite IH; reflexivity.
Qed.

Lemma mapM_as_text (ss : list string) : mapM as_text (PyStr <$> ss) = Some ss.
Proof.
  induction ss as [| s ss IH]; [reflexivity |].
  cbn. cbn in IH. rewrite IH. reflexivity.
Qed.

Lemma embed_texts_run (ss : list string) (w : world) :
  embed_texts (PyList (PyStr <$> ss)) w
  = (Return (encode <$> ss), logged (Encode (PyList (PyStr <$> ss))) w).
Proof.
  unfold embed_texts, bind, log. rewrite mapM_as_text. reflexivity.
Qed.

(** [batch_insert] on a non-empty list of strings, with ids absent or of
    the right length, up to the point where the metadatas are looked
    at: the ids are resolved, the texts are embedded, nothing has reached
    the collection. *)
Lemma batch_insert_run (ss : list string) (metadatas text_ids : pyval)
    (w : world) :
  ss ≠ [] ->
  text_ids = PyNone ∨ py_len text_ids = Some (length ss) ->
  let texts := PyList (PyStr <$> ss) in
  let ids := resolved_ids (uuid_draws w) (length ss) text_ids in
  batch_insert texts metadatas text_ids w
  = (metadatas' <- (if is_none metadatas
                    then ret (PyList (replicate (length ss) PyNone))
                    else n <- len metadatas ;;
                         if bool_decide (n ≠ length ss)
                         then raise (ValueError MetadatasLength)
                         else ret metadatas) ;;
     coll_upsert ids (Some (encode <$> ss)) texts metadatas' ;;
     ret ids)
      (logged (Encode texts) (drawn w (draws_for (length ss) text_ids))).
Proof.
  intros Hss Hids texts ids. subst texts.
  destruct ss as [| s0 ss']; [congruence |].
  set (ss := s0 :: ss') in *. unfold batch_insert.
  change (PyStr <$> ss) with (PyStr s0 :: (PyStr <$> ss')) at 1.
  cbv iota beta.
  change (PyStr s0 :: (PyStr <$> ss')) with (PyStr <$> ss).
  rewrite !length_fmap.
  assert (Hstage :
    (if is_none text_ids
     then ids0 <- fresh_ids (PyStr <$> ss) ;; ret (PyList ids0)
     else n <- len text_ids ;;
          if bool_decide (n ≠ length ss)
          then raise (ValueError TextIdsLength)
          else ret text_ids) w
    = (Return (match text_ids with
               | PyNone => PyList (ids_from (uuid_draws w) (length ss))
               | v => v
               end),
       drawn w (match text_ids with PyNone => length ss | _ => 0 end))).
  { destruct Hids as [-> | Hlen].
    - cbn [is_none]. unfold bind. rewrite fresh_ids_run, length_fmap.
      reflexivity.
    - destruct text_ids; try discriminate Hlen; cbn [is_none];
        unfold len; rewrite Hlen; unfold bind, ret;
        rewrite bool_decide_false by (intros ?; congruence);
        rewrite drawn_0; reflexivity. }
  rewrite (bind_return _ _ _ _ _ Hstage). clear Hstage.
  assert (Hfill :
    (match (match text_ids with
            | PyNone => PyList (ids_from (uuid_draws w) (length ss))
            | v => v
            end) with
     | PyList ids0 =>
         if existsb is_none ids0
         then ids' <- fill_ids ids0 ;; ret (PyList ids')
         else ret (match text_ids with
                   | PyNone => PyList (ids_from (uuid_draws w) (length ss))
                   | v => v
                   end)
     | _ => ret (match text_ids with
                 | PyNone => PyList (ids_from (uuid_draws w) (length ss))
                 | v => v
                 end)
     end) (drawn w (match text_ids with PyNone => length ss | _ => 0 end))
    = (Return ids, drawn w (draws_for (length ss) text_ids))).
  { subst ids. destruct text_ids as [ | b | z | k | u | l | d ];
      cbn [resolved_ids draws_for]; try reflexivity.
    - assert (E : existsb is_none (ids_from (uuid_draws w) (length ss)) = false).
      { unfold ids_from. generalize (seq (uuid_draws w) (length ss)).
        intros l. induction l; [reflexivity | exact IHl]. }
      rewrite E. reflexivity.
    - destruct (existsb is_none l) eqn:E.
      + unfold bind. rewrite fill_ids_run. unfold ret, drawn. cbn.
        rewrite Nat.add_0_r. reflexivity.
      + rewrite (filled_no_none _ _ E), (count_none_no_none _ E).
        reflexivity. }
  rewrite (bind_return _ _ _ _ _ Hfill). clear Hfill.
  rewrite (bind_return _ _ _ _ _ (embed_texts_run ss _)).
  reflexivity.
Qed.
End Batch_lemmas.

Section Claims_validation.
Context `{Collaborators}.

Lemma batch_insert_bad_texts (texts metadatas text_ids : pyval) (w : world) :
  is_list texts = false ∨ texts = PyList [] ->
  batch_insert texts metadatas text_ids w
  = (Raise (ValueError TextsNotNonEmptyList), w).
Proof.
  intros [Hl | ->]; [| reflexivity].
  destruct texts; try discriminate Hl; reflexivity.
Qed.

Lemma batch_insert_ids_mismatch (ts : list pyval) (metadatas text_ids : pyval)
    (n : nat) (w : world) :
  ts ≠ [] ->
  py_len text_ids = Some n ->
  n ≠ length ts ->
  batch_insert (PyList ts) metadatas text_ids w
  = (Raise (ValueError TextIdsLength), w).
Proof.
  intros Hts Hlen Hn. destruct ts as [| t ts']; [congruence |].
  unfold batch_insert.
  assert (Hnone : is_none text_ids = false)
    by (destruct text_ids; try reflexivity; discriminate Hlen).
  rewrite Hnone. unfold bind at 1. unfold bind at 1. unfold len.
  rewrite Hlen. unfold ret at 1. rewrite bool_decide_true by exact Hn.
  reflexivity.
Qed.

Lemma batch_insert_metadatas_mismatch (ss : list string)
    (metadatas text_ids : pyval) (n : nat) (w : world) :
  ss ≠ [] ->
  text_ids = PyNone ∨ py_len text_ids = Some (length ss) ->
  py_len metadatas = Some n ->
  n ≠ length ss ->
  batch_insert (PyList (PyStr <$> ss)) metadatas text_ids w
  = (Raise (ValueError MetadatasLength),
     logged (Encode (PyList (PyStr <$> ss)))
            (drawn w (draws_for (length ss) text_ids))).
Proof.
  intros Hss Hids Hlen Hn.
  rewrite (batch_insert_run ss metadatas text_ids w Hss Hids).
  assert (Hnone : is_none metadatas = false)
    by (destruct metadatas; try reflexivity; discriminate Hlen).
  rewrite Hnone. unfold bind at 1. unfold bind at 1. unfold len.
  rewrite Hlen. unfold ret at 1. rewrite bool_decide_true by exact Hn.
  reflexivity.
Qed.

Lemma insert_falsy_text (text metadata text_id : pyval) (w : world) :
  py_truthy text = false ->
  ∃ why w',
    insert text metadata text_id w = (Raise (ValueError why), w')
    ∧ kind_of (ValueError why) = ValidationError
    ∧ collection w' = collection w
    ∧ trace w' = trace w.
Proof.
  intros Hf. unfold insert.
  destruct (is_list text && is_list metadata && is_list text_id) eqn:Hd.
  - exists TextsNotNonEmptyList, w.
    split; [| split; [reflexivity | split; reflexivity]].
    apply batch_insert_bad_texts. right.
    destruct text as [ | | | | | l | ]; try discriminate Hd.
    destruct l; [reflexivity | discriminate Hf].
  - destruct (is_none text_id).
    + exists TextEmpty. eexists.
      unfold bind, fresh_id, bind, uuid4_draw, ret. rewrite Hf.
      split; [reflexivity | split; [reflexivity | split; reflexivity]].
    + exists TextEmpty, w. unfold bind, ret. rewrite Hf.
      split; [reflexivity | split; [reflexivity | split; reflexivity]].
Qed.

(** C2, amended.  [insert] rejects an empty or absent text, and
    [batch_insert] an absent, empty or non-list [texts], with a
    ValidationError raised before any collaborator is called: the
    collection and the list of calls are as before.  (The elements of
    [texts] and the text of [update] are not looked at.) *)
Theorem empty_text_rejected (text texts metadata text_id : pyval) (w : world) :
  (py_truthy text = false ->
   ∃ why w',
     insert text metadata text_id w = (Raise (ValueError why), w')
     ∧ kind_of (ValueError why) = ValidationError
     ∧ collection w' = collection w
     ∧ trace w' = trace w)
  ∧ (is_list texts = false ∨ py_truthy texts = false ->
     batch_insert texts metadata text_id w
     = (Raise (ValueError TextsNotNonEmptyList), w)
     ∧ kind_of (ValueError TextsNotNonEmptyList) = ValidationError).
Proof.
  split.
  - apply insert_falsy_text.
  - intros Hbad. split; [| reflexivity].
    apply batch_insert_bad_texts.
    destruct Hbad as [Hl | Hf]; [left; exact Hl |].
    destruct texts as [ | | | | | l | ]; try (left; reflexivity).
    right. destruct l; [reflexivity | discriminate Hf].
Qed.

(** C4.  When text, metadata and id are all lists (of one length),
    [insert] is [batch_insert] on them: same result, same world. *)
Theorem insert_lists_is_batch_insert (texts metadatas text_ids : list pyval)
    (w : world) :
  length metadatas = length texts ->
  length text_ids = length texts ->
  insert (PyList texts) (PyList metadatas) (PyList text_ids) w
  = batch_insert (PyList texts) (PyList metadatas) (PyList text_ids) w.
Proof. intros _ _. reflexivity. Qed.

(** C6.  [batch_insert] raises a ValidationError
    - when [texts] is absent, not a list, or empty;
    - when the ids given have a length other than that of [texts];
    - when the metadatas given have a length other than that of [texts]
      (the texts being strings, and the ids absent or of the right
      length).
    In each case the collection is as before and no call has reached
    it; in the third the texts have been embedded (and absent ids
    generated) by then. *)
Theorem batch_insert_validation (texts metadatas text_ids : pyval) (w : world) :
  (is_list texts = false ∨ texts = PyList [] ->
   batch_insert texts metadatas text_ids w
   = (Raise (ValueError TextsNotNonEmptyList), w))
  ∧ (∀ ts n, texts = PyList ts -> ts ≠ [] ->
       py_len text_ids = Some n -> n ≠ length ts ->
       batch_insert texts metadatas text_ids w
       = (Raise (ValueError TextIdsLength), w))
  ∧ (∀ ss n, texts = PyList (PyStr <$> ss) -> ss ≠ [] ->
       text_ids = PyNone ∨ py_len text_ids = Some (length ss) ->
       py_len metadatas = Some n -> n ≠ length ss ->
       ∃ w', batch_insert texts metadatas text_ids w
             = (Raise (ValueError MetadatasLength), w')
             ∧ collection w' = collection w
             ∧ store_calls w' = store_calls w)
  ∧ kind_of (ValueError TextsNotNonEmptyList) = ValidationError
  ∧ kind_of (ValueError TextIdsLength) = ValidationError
  ∧ kind_of (ValueError MetadatasLength) = ValidationError.
Proof.
  split; [| split; [| split; [| repeat split ]]].
  - apply batch_insert_bad_texts.
  - intros ts n -> Hts Hlen Hn.
    apply (batch_insert_ids_mismatch ts metadatas text_ids n w Hts Hlen Hn).
  - intros ss n -> Hss Hids Hlen Hn. eexists. split; [| split].
    + apply (batch_insert_metadatas_mismatch ss metadatas text_ids n w
               Hss Hids Hlen Hn).
    + reflexivity.
    + unfold store_calls, logged. cbn [trace drawn].
      rewrite filter_app. cbn. apply app_nil_r.
Qed.
End Claims_validation.

(* --------------------------------------------------------------------- *)
(** *** Partially given ids *)
(* --------------------------------------------------------------------- *)

Section Claims_batch_ids.
Context `{Collaborators}.

Lemma filled_absent_slot (text_ids : list pyval) (i n : nat) :
  text_ids !! i = Some PyNone ->
  ∃ u, filled n text_ids !! i = Some (PyUUID u).
Proof.
  revert i n. induction text_ids as [| item rest IH]; intros i n Hi.
  - discriminate Hi.
  - destruct i as [| i'].
    + injection Hi as ->. cbn. eexists. reflexivity.
    + cbn [filled]. destruct (is_none item); cbn; apply IH, Hi.
Qed.

Lemma filled_given_slot (text_ids : list pyval) (i n : nat) (v : pyval) :
  text_ids !! i = Some v ->
  is_none v = false ->
  filled n text_ids !! i = Some v.
Proof.
  revert i n. induction text_ids as [| item rest IH]; intros i n Hi Hv.
  - discriminate Hi.
  - destruct i as [| i'].
    + injection Hi as ->. cbn. rewrite Hv. reflexivity.
    + cbn [filled]. destruct (is_none item); cbn; apply IH; assumption.
Qed.

Lemma mapM_as_id_uuid (ids : list pyval) (i : nat) (u : N) :
  ids !! i = Some (PyUUID u) -> mapM as_id ids = None.
Proof.
  intros Hi. destruct (mapM as_id ids) as [ks |] eqn:E; [| reflexivity].
  assert (Hall : Forall (is_Some ∘ as_id) ids)
    by (apply mapM_is_Some; rewrite E; eexists; reflexivity).
  rewrite Forall_lookup in Hall. destruct (Hall i _ Hi) as [k Hk].
  discriminate Hk.
Qed.

(** C5 (the code departs from it).  When the ids given to
    [batch_insert] have an absent slot, the slot is filled with the
    [uuid.UUID] object itself, not with its string: the ids handed to
    the collection's upsert hold a [PyUUID] there.  The collection, whose
    ids are strings, refuses the call, so [batch_insert] returns no ids
    and stores nothing. *)
Theorem batch_insert_absent_slot_not_a_string (ss : list string)
    (ids : list pyval) (metadatas : pyval) (i : nat) (w : world) :
  ss ≠ [] ->
  length ids = length ss ->
  ids !! i = Some PyNone ->
  metadatas = PyNone ∨ py_len metadatas = Some (length ss) ->
  let r := batch_insert (PyList (PyStr <$> ss)) metadatas (PyList ids) w in
  ∃ ids' u metadatas',
    last (trace r.2)
    = Some (Upsert (PyList ids') (Some (encode <$> ss))
                   (PyList (PyStr <$> ss)) metadatas')
    ∧ ids' !! i = Some (PyUUID u)
    ∧ is_str (PyUUID u) = false
    ∧ r.1 = Raise CollaboratorError
    ∧ collection r.2 = collection w.
Proof.
  intros Hss Hlen Hi Hm r.
  destruct (filled_absent_slot ids i (uuid_draws w) Hi) as [u Hu].
  exists (filled (uuid_draws w) ids), u,
    (if is_none metadatas then PyList (replicate (length ss) PyNone)
     else metadatas).
  assert (Hids : PyList ids = PyNone ∨ py_len (PyList ids) = Some (length ss))
    by (right; cbn; congruence).
  assert (Hstage :
    ∀ w1, (if is_none metadatas
           then ret (PyList (replicate (length ss) PyNone))
           else n <- len metadatas ;;
                if bool_decide (n ≠ length ss)
                then raise (ValueError MetadatasLength)
                else ret metadatas) w1
          = (Return (if is_none metadatas
                     then PyList (replicate (length ss) PyNone)
                     else metadatas), w1)).
  { intros w1. destruct Hm as [-> | Hm]; [reflexivity |].
    assert (Hnone : is_none metadatas = false)
      by (destruct metadatas; try reflexivity; discriminate Hm).
    rewrite Hnone. unfold bind, len. rewrite Hm. unfold ret.
    rewrite bool_decide_false by (intros Hne; apply Hne; reflexivity).
    reflexivity. }
  assert (Hrun : r = (Raise CollaboratorError,
    logged (Upsert (PyList (filled (uuid_draws w) ids)) (Some (encode <$> ss))
                   (PyList (PyStr <$> ss))
                   (if is_none metadatas
                    then PyList (replicate (length ss) PyNone) else metadatas))
      (logged (Encode (PyList (PyStr <$> ss)))
              (drawn w (count_none ids))))).
  { subst r.
    rewrite (batch_insert_run ss metadatas (PyList ids) w Hss Hids).
    cbn [resolved_ids draws_for].
    rewrite (bind_return _ _ _ _ _ (Hstage _)).
    apply bind_raise. unfold coll_upsert, bind, log, upsert_rows.
    cbn [one_or_many]. rewrite (mapM_as_id_uuid _ i u Hu). reflexivity. }
  rewrite Hrun. cbn [fst snd].
  split; [| split; [exact Hu | split; [reflexivity | split; reflexivity]]].
  unfold logged at 1. cbn [trace]. apply last_snoc.
Qed.
End Claims_batch_ids.

(* --------------------------------------------------------------------- *)
(** *** What a successful [batch_insert] stores *)
(* --------------------------------------------------------------------- *)

Section Batch_store.
Context `{Collaborators}.

Lemma foldl_put_row_other (rows : list (string * record embedding))
    (m : gmap string (record embedding)) (k : string) :
  k ∉ rows.*1 -> foldl put_row m rows !! k = m !! k.
Proof.
  revert m. induction rows as [| [k0 r0] rows IH]; intros m Hk; [reflexivity |].
  cbn in Hk. apply not_elem_of_cons in Hk as [Hne Hk].
  cbn [foldl]. rewrite (IH _ Hk). unfold put_row. cbn.
  apply lookup_insert_ne. congruence.
Qed.

Lemma foldl_put_row_lookup (rows : list (string * record embedding))
    (m : gmap string (record embedding)) (i : nat) (k : string)
    (r : record embedding) :
  NoDup rows.*1 ->
  rows !! i = Some (k, r) ->
  foldl put_row m rows !! k = Some r.
Proof.
  revert m i. induction rows as [| [k0 r0] rows IH]; intros m i Hnd Hi.
  - discriminate Hi.
  - cbn in Hnd. apply NoDup_cons in Hnd as [Hk0 Hnd]. destruct i as [| i'].
    + injection Hi as -> ->. cbn [foldl].
      rewrite (foldl_put_row_other _ _ _ Hk0). unfold put_row. cbn.
      apply lookup_insert_eq.
    + cbn [foldl]. apply (IH _ i' Hnd Hi).
Qed.

Lemma mapM_fixed {A} (f : A -> option A) (l : list A) :
  Forall (fun x => f x = Some x) l -> mapM f l = Some l.
Proof.
  intros Hall. apply mapM_Some_2. induction Hall; constructor; assumption.
Qed.

Lemma mapM_as_id_strs (ks : list string) : mapM as_id (PyStr <$> ks) = Some ks.
Proof.
  apply mapM_Some_2. induction ks; constructor; [reflexivity | assumption].
Qed.

Lemma upsert_rows_batch (ks ss : list string) (mds : list pyval) :
  length ks = length ss ->
  length mds = length ss ->
  Forall (fun m => is_metadata m = true) mds ->
  NoDup ks ->
  upsert_rows (PyList (PyStr <$> ks)) (Some (encode <$> ss))
              (PyList (PyStr <$> ss)) (PyList mds)
  = Some (batch_rows ks ss mds).
Proof.
  intros Lk Lm Hm Hnd. unfold upsert_rows. cbn [one_or_many].
  rewrite mapM_as_id_strs. cbn [mbind option_bind].
  rewrite (mapM_fixed as_document (PyStr <$> ss))
    by (apply Forall_fmap, Forall_forall; intros; reflexivity).
  cbn [mbind option_bind].
  rewrite (mapM_fixed as_metadata mds)
    by (eapply Forall_impl; [exact Hm |];
        intros m Hmm; destruct m; try discriminate Hmm; reflexivity).
  cbn [mbind option_bind].
  rewrite bool_decide_true
    by (rewrite !length_fmap; repeat split; first [congruence | exact Hnd]).
  reflexivity.
Qed.

Lemma batch_rows_keys (ks ss : list string) (mds : list pyval) :
  length ks = length ss ->
  length mds = length ss ->
  (batch_rows ks ss mds).*1 = ks.
Proof.
  intros Lk Lm. unfold batch_rows. apply fst_zip.
  rewrite length_zip_with_l_eq; rewrite ?length_zip, !length_fmap; lia.
Qed.

Lemma batch_rows_lookup (ks ss : list string) (mds : list pyval) (i : nat)
    (k s : string) (m : pyval) :
  ks !! i = Some k ->
  ss !! i = Some s ->
  mds !! i = Some m ->
  batch_rows ks ss mds !! i = Some (k, Rec (Some (encode s)) (PyStr s) m).
Proof.
  intros Hk Hs Hm. unfold batch_rows.
  rewrite !lookup_zip_with, !list_lookup_fmap, Hk, Hs, Hm. reflexivity.
Qed.

(** X13.  [batch_insert] of new records: the texts are strings; the ids
    are absent, or all given as strings; they are pairwise distinct and
    none of them is in use; the metadatas are absent, or given one per
    text, each absent or a non-empty mapping.  Then the call returns the
    ids, one per text in the order of the texts, and [get] on the i-th id
    returns the i-th text and metadata. *)
Lemma batch_insert_then_get (ss ks : list string) (mds : list pyval)
    (metadatas text_ids : pyval) (w : world) :
  ss ≠ [] ->
  (text_ids = PyNone
   ∧ ks = (fun i => uuid_str (uuid4 i)) <$> seq (uuid_draws w) (length ss))
  ∨ (text_ids = PyList (PyStr <$> ks) ∧ length ks = length ss) ->
  (metadatas = PyNone ∧ mds = replicate (length ss) PyNone)
  ∨ (metadatas = PyList mds ∧ length mds = length ss
     ∧ Forall (fun m => is_metadata m = true
                        ∧ (m = PyNone ∨ py_truthy m = true)) mds) ->
  NoDup ks ->
  (∀ k, k ∈ ks -> collection w !! k = None) ->
  ∃ w',
    batch_insert (PyList (PyStr <$> ss)) metadatas text_ids w
    = (Return (PyList (PyStr <$> ks)), w')
    ∧ length ks = length ss
    ∧ ∀ i k s m, ks !! i = Some k -> ss !! i = Some s -> mds !! i = Some m ->
        (get (PyStr k) w').1 = Return (Entry (PyStr k) (PyStr s) m).
Proof.
  intros Hss Hids Hmds Hnd _.
  assert (Lk : length ks = length ss).
  { destruct Hids as [[_ ->] | [_ L]]; [| exact L].
    rewrite length_fmap, length_seq. reflexivity. }
  assert (Lm : length mds = length ss).
  { destruct Hmds as [[_ ->] | (_ & L & _)]; [| exact L].
    apply length_replicate. }
  assert (Hm : Forall (fun m => is_metadata m = true) mds).
  { destruct Hmds as [[_ ->] | (_ & _ & F)].
    - apply Forall_replicate. reflexivity.
    - eapply Forall_impl; [exact F |]. intros m [Hmm _]. exact Hmm. }
  assert (Hres : resolved_ids (uuid_draws w) (length ss) text_ids
                 = PyList (PyStr <$> ks)).
  { destruct Hids as [[-> ->] | [-> _]]; cbn [resolved_ids].
    - unfold ids_from. rewrite <- list_fmap_compose. reflexivity.
    - rewrite filled_no_none; [reflexivity |].
      clear. induction ks; [reflexivity | assumption]. }
  assert (Hlen : text_ids = PyNone ∨ py_len text_ids = Some (length ss)).
  { destruct Hids as [[-> _] | [-> L]]; [left; reflexivity | right].
    cbn. rewrite length_fmap, L. reflexivity. }
  assert (Hstage : ∀ w1,
    (if is_none metadatas
     then ret (PyList (replicate (length ss) PyNone))
     else n <- len metadatas ;;
          if bool_decide (n ≠ length ss)
          then raise (ValueError MetadatasLength)
          else ret metadatas) w1
    = (Return (PyList mds), w1)).
  { intros w1. destruct Hmds as [[-> ->] | (-> & L & _)]; [reflexivity |].
    cbn [is_none]. unfold bind, len. cbn [py_len]. unfold ret.
    rewrite bool_decide_false by (intros Hne; apply Hne; exact L).
    reflexivity. }
  eexists. split; [| split; [exact Lk |]].
  - rewrite (batch_insert_run ss metadatas text_ids w Hss Hlen).
    rewrite (bind_return _ _ _ _ _ (Hstage _)). rewrite Hres.
    unfold coll_upsert, bind, log.
    rewrite (upsert_rows_batch ks ss mds Lk Lm Hm Hnd). reflexivity.
  - intros i k s m Hk Hs Hmi.
    rewrite (get_found k (Rec (Some (encode s)) (PyStr s) m)); [reflexivity |].
    cbn [collection logged drawn].
    apply (foldl_put_row_lookup _ _ i).
    + rewrite (batch_rows_keys ks ss mds Lk Lm). exact Hnd.
    + apply batch_rows_lookup; assumption.
Qed.
End Batch_store.

(* --------------------------------------------------------------------- *)
(** *** Flattening the answer of a query *)
(* --------------------------------------------------------------------- *)

Section Claims_query.
Context `{Collaborators}.

Lemma zip_items_projections (ids docs mds : list pyval) (ds : list distance) :
  length docs = length ids ->
  length mds = length ids ->
  length ds = length ids ->
  item_id <$> zip_items ids docs mds ds = ids
  ∧ item_text <$> zip_items ids docs mds ds = docs
  ∧ item_metadata <$> zip_items ids docs mds ds = mds
  ∧ item_distance <$> zip_items ids docs mds ds = ds.
Proof.
  revert docs mds ds.
  induction ids as [| i ids IH]; intros [| t docs] [| m mds] [| d ds];
    cbn; intros H1 H2 H3; try discriminate; [repeat split; reflexivity |].
  injection H1 as H1. injection H2 as H2. injection H3 as H3.
  destruct (IH docs mds ds H1 H2 H3) as (-> & -> & -> & ->).
  repeat split; reflexivity.
Qed.

Lemma flatten_from_run (results : query_results distance)
    (ids0 docs0 : list pyval) (dists0 : list distance) :
  qr_ids results !! 0 = Some ids0 ->
  qr_documents results !! 0 = Some docs0 ->
  qr_distances results !! 0 = Some dists0 ->
  length docs0 = length ids0 ->
  length (metadata_row results (length ids0)) = length ids0 ->
  length dists0 = length ids0 ->
  ∀ n i, i + n = length ids0 ->
    flatten_from results i n
    = Return (zip_items (drop i ids0) (drop i docs0)
                        (drop i (metadata_row results (length ids0)))
                        (drop i dists0)).
Proof.
  intros Hids Hdocs Hdists Ld Lm Lds.
  assert (Hmeta : ∀ i m,
    metadata_row results (length ids0) !! i = Some m ->
    match qr_metadatas results with
    | Some ((_ :: _) as ms) => obind (index ms 0) (fun l => index l i)
    | _ => Return PyNone
    end = Return m).
  { intros i m. unfold metadata_row.
    destruct (qr_metadatas results) as [[| row rest] |]; cbn.
    - intros Hm. apply lookup_replicate in Hm as [-> _]. reflexivity.
    - unfold index. intros ->. reflexivity.
    - intros Hm. apply lookup_replicate in Hm as [-> _]. reflexivity. }
  induction n as [| n IH]; intros i Hi.
  - cbn. rewrite (drop_ge ids0) by lia. reflexivity.
  - destruct (lookup_lt_is_Some_2 ids0 i) as [x Hx]; [lia |].
    destruct (lookup_lt_is_Some_2 docs0 i) as [t Ht]; [lia |].
    destruct (lookup_lt_is_Some_2 (metadata_row results (length ids0)) i)
      as [m Hm]; [lia |].
    destruct (lookup_lt_is_Some_2 dists0 i) as [d Hd]; [lia |].
    cbn [flatten_from]. rewrite (Hmeta i m Hm).
    unfold index at 1 2 3 4 5 6.
    rewrite Hids, Hdocs, Hdists. cbn [obind]. rewrite Hx, Ht, Hd.
    cbn [obind]. rewrite (IH (S i)) by lia. cbn [obind].
    rewrite (drop_S _ _ _ Hx), (drop_S _ _ _ Ht), (drop_S _ _ _ Hm),
      (drop_S _ _ _ Hd).
    reflexivity.
Qed.

Lemma flatten_run (results : query_results distance)
    (ids0 docs0 : list pyval) (dists0 : list distance) :
  qr_ids results !! 0 = Some ids0 ->
  qr_documents results !! 0 = Some docs0 ->
  qr_distances results !! 0 = Some dists0 ->
  length docs0 = length ids0 ->
  length (metadata_row results (length ids0)) = length ids0 ->
  length dists0 = length ids0 ->
  flatten results
  = Return (zip_items ids0 docs0 (metadata_row results (length ids0)) dists0).
Proof.
  intros Hids Hdocs Hdists Ld Lm Lds. unfold flatten, index.
  rewrite Hids. cbn [obind].
  rewrite (flatten_from_run results ids0 docs0 dists0 Hids Hdocs Hdists
             Ld Lm Lds (length ids0) 0) by lia.
  reflexivity.
Qed.

(** C7, amended.  Let the collection answer a query with the rows
    [ids0], [docs0], [dists0] of one length, and with a metadata row of
    that length when it returns a metadata array.  Then [query] returns
    one item per match, in the collection's order: the ids, texts and
    distances of the items are the collection's rows, so whatever order
    the distances have is kept, and there are at most [top_k] items when
    the collection returned at most [top_k] matches.  The metadata of
    the items are absent when the collection returned no metadata array;
    otherwise they are the collection's entries, absent ones included. *)
Theorem query_flattens (s : string) (top_k : Z) (where_ : pyval) (w : world)
    (results : query_results distance)
    (ids0 docs0 : list pyval) (dists0 : list distance) :
  let filter_ := if py_truthy where_ then Some where_ else None in
  nearest (collection w) [encode s] top_k filter_ = Some results ->
  qr_ids results !! 0 = Some ids0 ->
  qr_documents results !! 0 = Some docs0 ->
  qr_distances results !! 0 = Some dists0 ->
  length docs0 = length ids0 ->
  length (metadata_row results (length ids0)) = length ids0 ->
  length dists0 = length ids0 ->
  ∃ items,
    query (PyStr s) top_k where_ w
    = (Return items,
       logged (Query [encode s] top_k filter_) (logged (Encode (PyStr s)) w))
    ∧ length items = length ids0
    ∧ item_id <$> items = ids0
    ∧ item_text <$> items = docs0
    ∧ item_distance <$> items = dists0
    ∧ item_metadata <$> items = metadata_row results (length ids0)
    ∧ (match qr_metadatas results with
       | Some (_ :: _) => True
       | _ => Forall (fun it => item_metadata it = PyNone) items
       end)
    ∧ ((Z.of_nat (length ids0) ≤ top_k)%Z -> (Z.of_nat (length items) ≤ top_k)%Z).
Proof.
  intros filter_ Hq Hids Hdocs Hdists Ld Lm Lds.
  destruct (zip_items_projections ids0 docs0
              (metadata_row results (length ids0)) dists0 Ld Lm Lds)
    as (Pi & Pt & Pm & Pd).
  exists (zip_items ids0 docs0 (metadata_row results (length ids0)) dists0).
  pose proof Pi as Pi'.
  assert (Hlen : length (zip_items ids0 docs0
                   (metadata_row results (length ids0)) dists0) = length ids0).
  { apply (f_equal length) in Pi. rewrite length_fmap in Pi. exact Pi. }
  split; [| split; [exact Hlen | split; [exact Pi' | split; [exact Pt |
    split; [exact Pd | split; [exact Pm | split ]]]]]].
  - unfold query, embed_text, coll_query, bind, log, lift, ret.
    cbn [collection logged]. fold filter_. rewrite Hq.
    rewrite (flatten_run results ids0 docs0 dists0 Hids Hdocs Hdists Ld Lm Lds).
    reflexivity.
  - assert (Hrow : match qr_metadatas results with
                   | Some (_ :: _) => True
                   | _ => metadata_row results (length ids0)
                          = replicate (length ids0) PyNone
                   end).
    { unfold metadata_row.
      destruct (qr_metadatas results) as [[| row rest] |]; auto. }
    destruct (qr_metadatas results) as [[| row rest] |]; [| exact I |].
    all: apply (Forall_fmap item_metadata (fun m => m = PyNone));
      rewrite Pm, Hrow; apply Forall_replicate; reflexivity.
  - rewrite Hlen. auto.
Qed.
End Claims_query.

(* ===================================================================== *)
(** ** The properties on concrete runs *)
(* ===================================================================== *)

Section Runs.
Import Demo.

Lemma w_alice_holds : collection w_alice !! "a" = Some r_alice.
Proof. vm_compute. reflexivity. Qed.

(* C8 *)
Lemma missing_id_witness :
  collection w_alice !! "zz" = None
  ∧ (get (PyStr "zz") w_alice).1 = Raise (ValueError (NoEntryFound (PyStr "zz")))
  ∧ (update (PyStr "zz") (PyStr "new") PyNone w_alice).1
    = Raise (ValueError (NoEntryFound (PyStr "zz")))
  ∧ (delete (PyStr "zz") w_alice).1 = Return tt.
Proof.
  assert (Hk : collection w_alice !! "zz" = None) by (vm_compute; reflexivity).
  destruct (missing_id_get_update_delete "zz" (PyStr "new") PyNone w_alice Hk)
    as (Hg & Hu & _ & Hd & _).
  rewrite Hg, Hu, Hd.
  split; [exact Hk | split; [reflexivity | split; reflexivity]].
Defined.

(* C9: db.update("a") on the collection holding "a": the call fails and
   the text is still "hello", not absent *)
Lemma update_without_text_refused :
  ∃ e w',
    update (PyStr "a") PyNone PyNone w_alice = (Raise e, w')
    ∧ rec_document <$> collection w' !! "a" = Some (PyStr "hello")
    ∧ rec_document <$> collection w' !! "a" ≠ Some PyNone.
Proof.
  eexists _, _.
  split; [vm_compute; reflexivity |].
  split; [vm_compute; reflexivity |].
  vm_compute. discriminate.
Qed.

Lemma update_without_text_witness :
  collection w_alice !! "a" = Some r_alice
  ∧ ∃ w', update (PyStr "a") PyNone PyNone w_alice = (Raise CollaboratorError, w')
          ∧ collection w' = collection w_alice
          ∧ (get (PyStr "a") w').1
            = Return (Entry (PyStr "a") (PyStr "hello") alice).
Proof.
  split; [exact w_alice_holds |].
  destruct (update_without_text "a" PyNone r_alice w_alice w_alice_holds)
    as (w' & Hu & _ & _ & Hc & Hg).
  exists w'. split; [exact Hu | split; [exact Hc | exact Hg]].
Defined.

(* C1 *)
Lemma update_passes_no_embedding_witness :
  collection w_alice !! "a" = Some r_alice
  ∧ "goodbye" ≠ EmptyString
  ∧ is_metadata alice = true
  ∧ ∃ w', update (PyStr "a") (PyStr "goodbye") alice w_alice = (Return tt, w')
          ∧ rec_embedding <$> collection w' !! "a" = Some None
          ∧ rec_embedding <$>
              collection (insert (PyStr "goodbye") alice (PyStr "a") w_alice).2 !! "a"
            = Some (Some (encode "goodbye")).
Proof.
  assert (Hs : "goodbye" ≠ EmptyString) by discriminate.
  split; [exact w_alice_holds | split; [exact Hs | split; [reflexivity |]]].
  destruct (update_passes_no_embedding "a" "goodbye" alice r_alice w_alice
              w_alice_holds Hs eq_refl) as (w' & Hu & _ & Hc & Hi).
  exists w'. split; [exact Hu |]. rewrite Hc, Hi. split; reflexivity.
Defined.

(* C3: the metadata given is the empty mapping, the metadata read back
   is absent *)
Lemma insert_get_empty_metadata :
  ∃ w' w'' e,
    insert (PyStr "hello") (PyDict ∅) (PyStr "a") w0 = (Return (PyStr "a"), w')
    ∧ get (PyStr "a") w' = (Return e, w'')
    ∧ entry_text e = PyStr "hello"
    ∧ entry_metadata e = PyNone
    ∧ entry_metadata e ≠ PyDict ∅.
Proof.
  eexists _, _, _.
  split; [vm_compute; reflexivity |].
  split; [vm_compute; reflexivity |].
  cbn. split; [reflexivity | split; [reflexivity | discriminate]].
Qed.

Lemma insert_then_get_witness :
  "hello" ≠ EmptyString
  ∧ is_metadata alice = true
  ∧ (PyNone = PyNone ∨ is_str PyNone = true)
  ∧ ∃ w' w'',
      insert (PyStr "hello") alice PyNone w0
      = (Return (PyStr (uuid_str (uuid4 (uuid_draws w0)))), w')
      ∧ get (PyStr (uuid_str (uuid4 (uuid_draws w0)))) w'
        = (Return (Entry (PyStr (uuid_str (uuid4 (uuid_draws w0))))
                         (PyStr "hello") alice), w'').
Proof.
  assert (Hs : "hello" ≠ EmptyString) by discriminate.
  split; [exact Hs | split; [reflexivity | split; [left; reflexivity |]]].
  exact (insert_then_get "hello" alice PyNone w0 Hs eq_refl (or_introl eq_refl)).
Defined.

(* C10 *)
Lemma falsy_metadata_as_absent_witness :
  py_truthy (PyDict ∅) = false
  ∧ insert (PyStr "hello") (PyDict ∅) (PyStr "a") w0
    = insert (PyStr "hello") PyNone (PyStr "a") w0
  ∧ update (PyStr "a") (PyStr "hello") (PyDict ∅) w_alice
    = update (PyStr "a") (PyStr "hello") PyNone w_alice
  ∧ ∃ e w'',
      get (PyStr "a") (insert (PyStr "hello") (PyDict ∅) (PyStr "a") w0).2
      = (Return e, w'')
      ∧ entry_metadata e = PyNone.
Proof.
  assert (Hf : py_truthy (PyDict ∅) = false) by (vm_compute; reflexivity).
  split; [exact Hf |].
  destruct (falsy_metadata_as_absent (PyStr "hello") (PyDict ∅) (PyStr "a") w0 Hf)
    as (Hi & _).
  destruct (Hi eq_refl) as [Heq Hget].
  destruct (falsy_metadata_as_absent (PyStr "hello") (PyDict ∅) (PyStr "a")
              w_alice Hf) as (_ & Hu & _).
  split; [exact Heq | split; [exact Hu |]].
  apply (Hget (PyStr "a")). vm_compute. reflexivity.
Defined.

(* C2: db.batch_insert([""], text_ids=["e"]) creates a record with an
   empty text without any error; db.update("a") with the text absent
   raises no validation error: it fails in the collection's upsert *)
Lemma empty_text_reachable :
  ∃ w' w'',
    batch_insert (PyList [PyStr EmptyString]) PyNone (PyList [PyStr "e"]) w0
    = (Return (PyList [PyStr "e"]), w')
    ∧ rec_document <$> collection w' !! "e" = Some (PyStr EmptyString)
    ∧ update (PyStr "a") PyNone PyNone w_alice = (Raise CollaboratorError, w'')
    ∧ kind_of CollaboratorError ≠ ValidationError
    ∧ last (trace w'')
      = Some (Upsert (PyList [PyStr "a"]) None (PyList [PyNone]) PyNone).
Proof.
  eexists _, _.
  split; [vm_compute; reflexivity |].
  split; [vm_compute; reflexivity |].
  split; [vm_compute; reflexivity |].
  split; [discriminate | vm_compute; reflexivity].
Qed.

Lemma empty_text_rejected_witness :
  py_truthy (PyStr EmptyString) = false
  ∧ (is_list PyNone = false ∨ py_truthy PyNone = false)
  ∧ (∃ why w', insert (PyStr EmptyString) PyNone PyNone w0 = (Raise (ValueError why), w')
               ∧ collection w' = collection w0 ∧ trace w' = trace w0)
  ∧ batch_insert PyNone PyNone PyNone w0
    = (Raise (ValueError TextsNotNonEmptyList), w0).
Proof.
  split; [reflexivity | split; [left; reflexivity |]].
  destruct (empty_text_rejected (PyStr EmptyString) PyNone PyNone PyNone w0) as [Hi Hb].
  destruct (Hi eq_refl) as (why & w' & Hr & _ & Hc & Ht).
  destruct (Hb (or_introl eq_refl)) as [Hbr _].
  split; [exists why, w'; split; [exact Hr | split; [exact Hc | exact Ht]] |].
  exact Hbr.
Defined.

(* C4 *)
Lemma insert_lists_is_batch_insert_witness :
  length [PyNone; PyNone] = length [PyStr "x"; PyStr "y"]
  ∧ length [PyStr "i"; PyStr "j"] = length [PyStr "x"; PyStr "y"]
  ∧ insert (PyList [PyStr "x"; PyStr "y"]) (PyList [PyNone; PyNone])
           (PyList [PyStr "i"; PyStr "j"]) w0
    = batch_insert (PyList [PyStr "x"; PyStr "y"]) (PyList [PyNone; PyNone])
                   (PyList [PyStr "i"; PyStr "j"]) w0.
Proof.
  split; [reflexivity | split; [reflexivity |]].
  apply (insert_lists_is_batch_insert [PyStr "x"; PyStr "y"] [PyNone; PyNone]
           [PyStr "i"; PyStr "j"] w0); reflexivity.
Defined.
End Runs.

Section Runs_batch_query.
Import Demo.

(* C6 *)
Lemma batch_insert_validation_witness :
  (is_list PyNone = false ∨ PyNone = PyList [])
  ∧ batch_insert PyNone PyNone PyNone w0
    = (Raise (ValueError TextsNotNonEmptyList), w0)
  ∧ batch_insert two_texts PyNone (PyList [PyStr "i"]) w0
    = (Raise (ValueError TextIdsLength), w0)
  ∧ ∃ w', batch_insert two_texts (PyList [PyNone]) PyNone w0
          = (Raise (ValueError MetadatasLength), w')
          ∧ collection w' = collection w0
          ∧ store_calls w' = store_calls w0.
Proof.
  assert (Ha : is_list PyNone = false ∨ PyNone = PyList [])
    by (left; reflexivity).
  split; [exact Ha |].
  destruct (batch_insert_validation PyNone PyNone PyNone w0) as (Hbad & _).
  destruct (batch_insert_validation two_texts PyNone (PyList [PyStr "i"]) w0)
    as (_ & Hids & _).
  destruct (batch_insert_validation two_texts (PyList [PyNone]) PyNone w0)
    as (_ & _ & Hmds & _).
  split; [exact (Hbad Ha) |].
  split.
  - apply (Hids [PyStr "x"; PyStr "y"] 1); [reflexivity | discriminate |
      reflexivity | cbn; lia].
  - apply (Hmds ["x"; "y"] 1); [reflexivity | discriminate |
      left; reflexivity | reflexivity | cbn; lia].
Defined.

(* C5: db.batch_insert(["first", "second"], text_ids=["x", None]) *)
Lemma batch_insert_absent_slot_witness :
  ["first"; "second"] ≠ []
  ∧ length [PyStr "x"; PyNone] = length ["first"; "second"]
  ∧ [PyStr "x"; PyNone] !! 1 = Some PyNone
  ∧ (let r := batch_insert (PyList [PyStr "first"; PyStr "second"]) PyNone
                           (PyList [PyStr "x"; PyNone]) w0 in
     ∃ ids' u metadatas',
       last (trace r.2)
       = Some (Upsert (PyList ids') (Some (encode <$> ["first"; "second"]))
                      (PyList [PyStr "first"; PyStr "second"]) metadatas')
       ∧ ids' !! 1 = Some (PyUUID u)
       ∧ is_str (PyUUID u) = false
       ∧ r.1 = Raise CollaboratorError
       ∧ collection r.2 = collection w0).
Proof.
  assert (Hss : ["first"; "second"] ≠ []) by discriminate.
  split; [exact Hss | split; [reflexivity | split; [reflexivity |]]].
  exact (batch_insert_absent_slot_not_a_string ["first"; "second"]
           [PyStr "x"; PyNone] PyNone 1 w0 Hss eq_refl eq_refl
           (or_introl eq_refl)).
Defined.

(** the same call, run: the ids the collection is handed *)
Example batch_insert_partial_ids_run :
  batch_insert (PyList [PyStr "first"; PyStr "second"]) PyNone
               (PyList [PyStr "x"; PyNone]) w0
  = (Raise CollaboratorError,
     World ∅ 1
       [Encode (PyList [PyStr "first"; PyStr "second"]);
        Upsert (PyList [PyStr "x"; PyUUID 0]) (Some [5%Z; 6%Z])
               (PyList [PyStr "first"; PyStr "second"])
               (PyList [PyNone; PyNone])]).
Proof. vm_compute. reflexivity. Qed.

(** with no ids given, both ids are strings *)
Example batch_insert_no_ids_run :
  (batch_insert (PyList [PyStr "first"; PyStr "second"]) PyNone PyNone w0).1
  = Return (PyList [PyStr "00000000-0000-0000-0000-000000000000";
                    PyStr "00000000-0000-0000-0000-000000000001"]).
Proof. vm_compute. reflexivity. Qed.

Lemma w_two_answer : nearest (collection w_two) [encode "bbb"] 2 None = Some answer.
Proof. vm_compute. reflexivity. Qed.

(* C7: the collection returned a metadata array, and the first item's
   metadata is absent all the same *)
Lemma query_metadata_absent_with_array :
  ∃ items w',
    nearest (collection w_two) [encode "bbb"] 2 None = Some answer
    ∧ qr_metadatas answer = Some [[PyNone; alice]]
    ∧ query (PyStr "bbb") 2 PyNone w_two = (Return items, w')
    ∧ item_metadata <$> items = [PyNone; alice].
Proof.
  eexists _, _.
  split; [exact w_two_answer |].
  split; [reflexivity |].
  split; [vm_compute; reflexivity |].
  vm_compute. reflexivity.
Qed.

Lemma query_flattens_witness :
  nearest (collection w_two) [encode "bbb"] 2 None = Some answer
  ∧ ∃ items,
      (query (PyStr "bbb") 2 PyNone w_two).1 = Return items
      ∧ item_id <$> items = [PyStr "j"; PyStr "i"]
      ∧ item_distance <$> items = [1%Z; 2%Z]
      ∧ (Z.of_nat (length items) ≤ 2)%Z.
Proof.
  split; [exact w_two_answer |].
  destruct (query_flattens "bbb" 2 PyNone w_two answer
              [PyStr "j"; PyStr "i"] [PyStr "bbbb"; PyStr "a"] [1%Z; 2%Z]
              w_two_answer eq_refl eq_refl eq_refl eq_refl eq_refl eq_refl)
    as (items & Hq & _ & Hi & _ & Hd & _ & _ & Hk).
  exists items. rewrite Hq.
  split; [reflexivity | split; [exact Hi | split; [exact Hd |]]].
  apply Hk. cbn. lia.
Defined.
End Runs_batch_query.

(* ===================================================================== *)
(** ** Further properties of the facade *)
(* ===================================================================== *)

(* --------------------------------------------------------------------- *)
(** *** A call that raises leaves the collection as it was *)
(* --------------------------------------------------------------------- *)

Section Exception_safety.
Context `{Collaborators}.

Lemma keeps_ret {A} (a : A) : keeps (ret a).
Proof. intros w. reflexivity. Qed.

Lemma keeps_raise {A} (e : exn) : keeps (raise (A := A) e).
Proof. intros w. reflexivity. Qed.

Lemma keeps_lift {A} (o : outcome A) : keeps (lift o).
Proof. intros w. reflexivity. Qed.

Lemma keeps_log (c : call embedding) : keeps (log c).
Proof. intros w. reflexivity. Qed.

Lemma keeps_uuid4_draw : keeps uuid4_draw.
Proof. intros w. reflexivity. Qed.

Lemma keeps_bind {A B} (m : py A) (k : A -> py B) :
  keeps m -> (∀ a, keeps (k a)) -> keeps (bind m k).
Proof.
  intros Hm Hk w. unfold bind. specialize (Hm w).
  destruct (m w) as [[a | e] w1]; cbn in *.
  - rewrite (Hk a w1). exact Hm.
  - exact Hm.
Qed.

Lemma keeps_safe {A} (m : py A) : keeps m -> safe m.
Proof. intros Hm w e w' E. specialize (Hm w). rewrite E in Hm. exact Hm. Qed.

Lemma safe_bind {A B} (m : py A) (k : A -> py B) :
  keeps m -> (∀ a, safe (k a)) -> safe (bind m k).
Proof.
  intros Hm Hk w e w' E. unfold bind in E. specialize (Hm w).
  destruct (m w) as [[a | e0] w1]; cbn in *.
  - rewrite (Hk a w1 e w' E). exact Hm.
  - injection E as <- <-. exact Hm.
Qed.

(** a statement that may change the collection, followed by one that only
    returns *)
Lemma safe_then_ret {A B} (m : py A) (b : B) :
  safe m -> safe (bind m (fun _ => ret b)).
Proof.
  intros Hm w e w' E. unfold bind in E.
  destruct (m w) as [[a | e0] w1] eqn:Em; cbn in E.
  - discriminate E.
  - injection E as <- <-. apply (Hm w e0 w1 Em).
Qed.

Lemma keeps_len (v : pyval) : keeps (len v).
Proof. unfold len. destruct (py_len v); [apply keeps_ret | apply keeps_raise]. Qed.

Lemma keeps_fresh_id : keeps fresh_id.
Proof.
  apply keeps_bind; [apply keeps_uuid4_draw | intros; apply keeps_ret].
Qed.

Lemma keeps_fresh_ids {A} (texts : list A) : keeps (fresh_ids texts).
Proof.
  induction texts as [| t texts IH]; [apply keeps_ret |].
  cbn [fresh_ids]. apply keeps_bind; [apply keeps_fresh_id | intros i].
  apply keeps_bind; [exact IH | intros; apply keeps_ret].
Qed.

Lemma keeps_fill_ids (text_ids : list pyval) : keeps (fill_ids text_ids).
Proof.
  induction text_ids as [| item rest IH]; [apply keeps_ret |].
  cbn [fill_ids]. apply keeps_bind.
  - destruct (is_none item); [| apply keeps_ret].
    apply keeps_bind; [apply keeps_uuid4_draw | intros; apply keeps_ret].
  - intros i. apply keeps_bind; [exact IH | intros; apply keeps_ret].
Qed.

Lemma keeps_answer_of {A} (o : option A) : keeps (answer_of o).
Proof. destruct o; [apply keeps_ret | apply keeps_raise]. Qed.

Lemma keeps_embed_text (text : pyval) : keeps (embed_text text).
Proof.
  unfold embed_text. apply keeps_bind; [apply keeps_log | intros _].
  destruct text; first [apply keeps_ret | apply keeps_answer_of].
Qed.

Lemma keeps_embed_texts (texts : pyval) : keeps (embed_texts texts).
Proof.
  unfold embed_texts. apply keeps_bind; [apply keeps_log | intros _].
  destruct texts as [ | | | | | ts | ]; try apply keeps_answer_of.
  destruct (mapM as_text ts); [apply keeps_ret | apply keeps_answer_of].
Qed.

Lemma keeps_coll_get (ids : list pyval) : keeps (coll_get ids).
Proof.
  unfold coll_get. apply keeps_bind; [apply keeps_log | intros _].
  destruct (mapM as_id ids); [| apply keeps_raise].
  intros w. reflexivity.
Qed.

Lemma keeps_coll_query (qs : list embedding) (n : Z) (where_ : option pyval) :
  keeps (coll_query qs n where_).
Proof.
  unfold coll_query. apply keeps_bind; [apply keeps_log | intros _].
  intros w. destruct (nearest (collection w) qs n where_); reflexivity.
Qed.

Lemma safe_coll_upsert (ids : pyval) (embeddings : option (list embedding))
    (documents metadatas : pyval) :
  safe (coll_upsert ids embeddings documents metadatas).
Proof.
  unfold coll_upsert. apply safe_bind; [apply keeps_log | intros _].
  destruct (upsert_rows ids embeddings documents metadatas).
  - intros w e w' E. discriminate E.
  - apply keeps_safe, keeps_raise.
Qed.

Lemma safe_coll_delete (ids : list pyval) : safe (coll_delete ids).
Proof.
  unfold coll_delete. apply safe_bind; [apply keeps_log | intros _].
  destruct (mapM as_id ids).
  - intros w e w' E. discriminate E.
  - apply keeps_safe, keeps_raise.
Qed.

Lemma keeps_get (text_id : pyval) : keeps (get text_id).
Proof.
  unfold get. apply keeps_bind; [apply keeps_coll_get | intros results].
  destruct (negb (py_truthy (PyList (gr_documents results))));
    [apply keeps_raise |].
  apply keeps_bind; [apply keeps_lift | intros text].
  apply keeps_bind; [| intros; apply keeps_ret].
  destruct (py_truthy (PyList (gr_metadatas results)));
    [apply keeps_lift | apply keeps_ret].
Qed.

Lemma keeps_query (query_text : pyval) (top_k : Z) (where_ : pyval) :
  keeps (query query_text top_k where_).
Proof.
  unfold query. apply keeps_bind; [apply keeps_embed_text | intros e].
  apply keeps_bind; [apply keeps_coll_query | intros r]. apply keeps_lift.
Qed.

Lemma safe_batch_insert (texts metadatas text_ids : pyval) :
  safe (batch_insert texts metadatas text_ids).
Proof.
  unfold batch_insert.
  destruct texts as [ | | | | | [| t ts] | ]; try apply keeps_safe, keeps_raise.
  apply safe_bind.
  { destruct (is_none text_ids).
    - apply keeps_bind; [apply keeps_fresh_ids | intros; apply keeps_ret].
    - apply keeps_bind; [apply keeps_len | intros n].
      destruct (bool_decide (n ≠ length (t :: ts)));
        [apply keeps_raise | apply keeps_ret]. }
  intros ids1. apply safe_bind.
  { destruct ids1 as [ | | | | | l | ]; try apply keeps_ret.
    destruct (existsb is_none l); [| apply keeps_ret].
    apply keeps_bind; [apply keeps_fill_ids | intros; apply keeps_ret]. }
  intros ids2. apply safe_bind; [apply keeps_embed_texts | intros es].
  apply safe_bind.
  { destruct (is_none metadatas); [apply keeps_ret |].
    apply keeps_bind; [apply keeps_len | intros n].
    destruct (bool_decide (n ≠ length (t :: ts)));
      [apply keeps_raise | apply keeps_ret]. }
  intros mds. apply safe_then_ret, safe_coll_upsert.
Qed.

Lemma safe_insert (text metadata text_id : pyval) :
  safe (insert text metadata text_id).
Proof.
  unfold insert.
  destruct (is_list text && is_list metadata && is_list text_id);
    [apply safe_batch_insert |].
  apply safe_bind.
  { destruct (is_none text_id); [apply keeps_fresh_id | apply keeps_ret]. }
  intros id1. destruct (negb (py_truthy text)); [apply keeps_safe, keeps_raise |].
  apply safe_bind; [apply keeps_embed_text | intros e].
  apply safe_then_ret, safe_coll_upsert.
Qed.

Lemma safe_update (text_id text metadata : pyval) :
  safe (update text_id text metadata).
Proof.
  unfold update. destruct (is_none text_id); [apply keeps_safe, keeps_raise |].
  apply safe_bind; [apply keeps_coll_get | intros results].
  destruct (negb (py_truthy (PyList (gr_documents results))));
    [apply keeps_safe, keeps_raise | apply safe_coll_upsert].
Qed.

(** X1.  Whatever the arguments, a call of [insert], [batch_insert],
    [update] or [delete] that raises (a validation error, a missing id, a
    failure of the embedder or of the collection) leaves the collection as
    it was; [get] and [query] leave it as it was in every case. *)
Theorem failed_call_keeps_collection (a b c : pyval) (top_k : Z) (w : world) :
  (∀ e w', insert a b c w = (Raise e, w') -> collection w' = collection w)
  ∧ (∀ e w', batch_insert a b c w = (Raise e, w') -> collection w' = collection w)
  ∧ (∀ e w', update a b c w = (Raise e, w') -> collection w' = collection w)
  ∧ (∀ e w', delete a w = (Raise e, w') -> collection w' = collection w)
  ∧ collection (get a w).2 = collection w
  ∧ collection (query a top_k b w).2 = collection w.
Proof.
  split; [| split; [| split; [| split; [| split]]]].
  - intros e w'. apply safe_insert.
  - intros e w'. apply safe_batch_insert.
  - intros e w'. apply safe_update.
  - intros e w'. apply safe_coll_delete.
  - apply keeps_get.
  - apply keeps_query.
Qed.
End Exception_safety.

(* --------------------------------------------------------------------- *)
(** *** Single records: what is written and removed *)
(* --------------------------------------------------------------------- *)

Section Single_records.
Context `{Collaborators}.

(** a successful upsert of one row, read backwards *)
Lemma coll_upsert_one_inv (v doc md : pyval) (e : option embedding)
    (w w' : world) :
  coll_upsert (PyList [v]) ((fun x => [x]) <$> e) (PyList [doc])
              (if py_truthy md then PyList [md] else PyNone) w
  = (Return tt, w') ->
  ∃ k, v = PyStr k
       ∧ collection w'
         = <[k := Rec e doc (if py_truthy md then md else PyNone)]> (collection w).
Proof.
  unfold coll_upsert, bind, log, logged, upsert_rows.
  destruct v as [ | | | k | | | ]; try (cbn; intros E; discriminate E).
  cbn [mapM as_id mbind option_bind mret option_ret fmap option_fmap option_map].
  destruct doc as [ | | | s | | | ];
    try (cbn; intros E; discriminate E);
    destruct md as [ | b | z | s' | u | l | d ]; cbn [py_truthy];
    try destruct b; try destruct (negb (z =? 0)%Z);
    try destruct (negb (String.eqb s' EmptyString));
    try destruct l; try destruct (negb (bool_decide (d = ∅)));
    destruct e; cbn; intros E; try discriminate E;
    injection E as <-; exists k; split; reflexivity.
Qed.

(** X2.  Outside the dispatch to [batch_insert], a call of [insert] that
    returns has written exactly one record: the id returned is the id
    given (or [str(uuid.uuid4())] when none was given), the record under
    it holds the text and the metadata of the call (no metadata when the
    one given is falsy), and every other id reads as before. *)
Theorem insert_writes_one_record (text metadata text_id r : pyval)
    (w w' : world) :
  is_list text && is_list metadata && is_list text_id = false ->
  insert text metadata text_id w = (Return r, w') ->
  ∃ k rcd,
    r = PyStr k
    ∧ r = (if is_none text_id then PyStr (uuid_str (uuid4 (uuid_draws w)))
           else text_id)
    ∧ collection w' = <[k := rcd]> (collection w)
    ∧ rec_document rcd = text
    ∧ rec_metadata rcd = (if py_truthy metadata then metadata else PyNone)
    ∧ ∀ k', k' ≠ k -> collection w' !! k' = collection w !! k'.
Proof.
  intros Hd E. unfold insert in E. rewrite Hd in E.
  set (id1 := if is_none text_id
              then PyStr (uuid_str (uuid4 (uuid_draws w))) else text_id).
  set (w1 := if is_none text_id
             then World (collection w) (S (uuid_draws w)) (trace w) else w).
  assert (Hid : (if is_none text_id then fresh_id else ret text_id) w
                = (Return id1, w1))
    by (subst id1 w1; destruct (is_none text_id); reflexivity).
  rewrite (bind_return _ _ _ _ _ Hid) in E.
  destruct (negb (py_truthy text)); [discriminate E |].
  unfold bind at 1 in E.
  destruct (embed_text text w1) as [[e | ex] w2] eqn:Ee; [| discriminate E].
  assert (Hc2 : collection w2 = collection w).
  { pose proof (keeps_embed_text text w1) as K. rewrite Ee in K. cbn in K.
    rewrite K. subst w1. destruct (is_none text_id); reflexivity. }
  unfold bind at 1 in E.
  destruct (coll_upsert (PyList [id1]) (Some [e]) (PyList [text])
              (if py_truthy metadata then PyList [metadata] else PyNone) w2)
    as [[[] | ex] w3] eqn:Eu; [| discriminate E].
  injection E as <- <-.
  destruct (coll_upsert_one_inv id1 text metadata (Some e) w2 w3 Eu)
    as (k & Hk & Hc).
  exists k, (Rec (Some e) text (if py_truthy metadata then metadata else PyNone)).
  rewrite Hc2 in Hc.
  split; [exact Hk | split; [reflexivity | split; [exact Hc |
    split; [reflexivity | split; [reflexivity |]]]]].
  intros k' Hne. rewrite Hc. apply lookup_insert_ne. congruence.
Qed.

Lemma delete_run (k : string) (w : world) :
  delete (PyStr k) w
  = (Return tt,
     World (base.delete k (collection w)) (uuid_draws w)
           (trace w ++ [Delete [PyStr k]])).
Proof. reflexivity. Qed.

Lemma get_result (k : string) (w : world) :
  (get (PyStr k) w).1
  = match collection w !! k with
    | Some r => Return (Entry (PyStr k) (rec_document r) (rec_metadata r))
    | None => Raise (ValueError (NoEntryFound (PyStr k)))
    end.
Proof.
  destruct (collection w !! k) as [r |] eqn:Hk.
  - rewrite (get_found k r w Hk). reflexivity.
  - rewrite (get_missing k w Hk). reflexivity.
Qed.

(** X4.  [delete] of an id returns normally whether or not the id is in
    use; afterwards [get] on that id raises the not-found error, and [get]
    on any other id returns what it returned before. *)
Theorem delete_then_get (k : string) (w : world) :
  (delete (PyStr k) w).1 = Return tt
  ∧ (get (PyStr k) (delete (PyStr k) w).2).1
    = Raise (ValueError (NoEntryFound (PyStr k)))
  ∧ ∀ k', k' ≠ k ->
      (get (PyStr k') (delete (PyStr k) w).2).1 = (get (PyStr k') w).1.
Proof.
  rewrite delete_run. cbn [fst snd]. split; [reflexivity | split].
  - rewrite get_result. cbn [collection]. rewrite lookup_delete_eq. reflexivity.
  - intros k' Hne. rewrite !get_result. cbn [collection].
    rewrite lookup_delete_ne by congruence. reflexivity.
Qed.

(** X5.  Inserting a record under an id that is not in use and deleting
    that id again gives back the collection as it was. *)
Theorem insert_then_delete (s k : string) (metadata : pyval) (w : world) :
  collection w !! k = None ->
  s ≠ EmptyString ->
  is_metadata metadata = true ->
  collection (delete (PyStr k) (insert (PyStr s) metadata (PyStr k) w).2).2
  = collection w.
Proof.
  intros Hk Hs Hm. rewrite (insert_with_id s k metadata w Hs Hm).
  rewrite delete_run. cbn [snd collection].
  rewrite delete_insert_eq. apply delete_id, Hk.
Qed.

(** X6.  [update] never creates and never removes a record: whatever the
    arguments and whatever the outcome, the ids in use are the same before
    and after. *)
Theorem update_keeps_ids (text_id text metadata : pyval) (w : world) :
  dom (collection (update text_id text metadata w).2) = dom (collection w).
Proof.
  destruct (update text_id text metadata w) as [[[] | e] w'] eqn:E.
  - cbn [snd]. unfold update in E.
    destruct text_id as [ | | | k | | | ]; try discriminate E.
    cbn [is_none] in E. unfold bind at 1 in E. rewrite coll_get_one in E.
    destruct (collection w !! k) as [r |] eqn:Hk; [| discriminate E].
    cbn [gr_documents py_truthy negb] in E.
    destruct (coll_upsert_one_inv (PyStr k) text metadata None _ w' E)
      as (k0 & Hk0 & Hc).
    injection Hk0 as <-. rewrite Hc. cbn [collection logged].
    rewrite dom_insert_L.
    assert (Hin : k ∈ dom (collection w)) by (apply elem_of_dom; eauto).
    apply leibniz_equiv. apply set_equiv. intros x.
    rewrite elem_of_union, elem_of_singleton. split; [| auto].
    intros [-> | Hx]; assumption.
  - cbn [snd]. rewrite (safe_update text_id text metadata w e w' E).
    reflexivity.
Qed.

End Single_records.

(* --------------------------------------------------------------------- *)
(** *** The query sent to the collection, and the bounds of flattening *)
(* --------------------------------------------------------------------- *)

Section Query_edges.
Context `{Collaborators}.

(** X8.  [query] sends the collection one search: the embedding of the
    query text, [n_results = top_k], and the [where] filter only when it
    is truthy.  A falsy filter (an empty mapping) is dropped, so the call
    is the call without a filter.  This is so whether or not the search or
    the flattening of its answer then fails. *)
Theorem query_filter_passthrough (query_text : pyval) (s : string) (top_k : Z)
    (where_ : pyval) (w : world) :
  (py_truthy where_ = false ->
   query query_text top_k where_ w = query query_text top_k PyNone w)
  ∧ trace (query (PyStr s) top_k where_ w).2
    = (trace w ++ [Encode (PyStr s);
                   Query [encode s] top_k
                         (if py_truthy where_ then Some where_ else None)])%list.
Proof.
  split.
  - intros Hf. unfold query. rewrite Hf. reflexivity.
  - unfold query, embed_text, coll_query, bind, log, lift, ret, logged.
    cbn [collection trace uuid_draws].
    destruct (nearest (collection w) [encode s] top_k
                (if py_truthy where_ then Some where_ else None));
      cbn [snd trace]; rewrite <- app_assoc; reflexivity.
Qed.

Lemma index_first_row {A} (rows : list (list A)) (i : nat) :
  obind (index rows 0) (fun l => index l i) = index (first_row rows) i.
Proof.
  unfold first_row, index at 1. destruct (rows !! 0); reflexivity.
Qed.

Lemma index_metadata_row (results : query_results distance) (n i : nat) :
  (i < n)%nat ->
  match qr_metadatas results with
  | Some ((_ :: _) as ms) => obind (index ms 0) (fun l => index l i)
  | _ => Return PyNone
  end = index (metadata_row results n) i.
Proof.
  intros Hi. unfold metadata_row, index.
  destruct (qr_metadatas results) as [[| row rest] |]; cbn;
    try reflexivity; rewrite lookup_replicate_2 by exact Hi; reflexivity.
Qed.

(** one iteration of the loop, with the rows named *)
Lemma flatten_from_step (results : query_results distance) (ids0 : list pyval)
    (i n' : nat) :
  qr_ids results !! 0 = Some ids0 ->
  (i < length ids0)%nat ->
  flatten_from results i (S n')
  = obind (index ids0 i) (fun id_ =>
    obind (index (first_row (qr_documents results)) i) (fun text =>
    obind (index (metadata_row results (length ids0)) i) (fun metadata =>
    obind (index (first_row (qr_distances results)) i) (fun d =>
    obind (flatten_from results (S i) n') (fun rest =>
    Return (Item id_ text metadata d :: rest)))))).
Proof.
  intros Hids Hi. cbn [flatten_from].
  rewrite (index_metadata_row results (length ids0) i Hi).
  rewrite !index_first_row.
  unfold first_row at 1. rewrite Hids. reflexivity.
Qed.

Lemma flatten_from_ok (results : query_results distance) (ids0 : list pyval) :
  qr_ids results !! 0 = Some ids0 ->
  (length ids0 ≤ length (first_row (qr_documents results)))%nat ->
  (length ids0 ≤ length (metadata_row results (length ids0)))%nat ->
  (length ids0 ≤ length (first_row (qr_distances results)))%nat ->
  ∀ n' i, i + n' = length ids0 ->
    flatten_from results i n'
    = Return (zip_items (drop i ids0)
                (drop i (first_row (qr_documents results)))
                (drop i (metadata_row results (length ids0)))
                (drop i (first_row (qr_distances results)))).
Proof.
  intros Hids Ld Lm Lds. induction n' as [| n' IH]; intros i Hi.
  - cbn. rewrite (drop_ge ids0) by lia. reflexivity.
  - destruct (lookup_lt_is_Some_2 ids0 i) as [x Hx]; [lia |].
    destruct (lookup_lt_is_Some_2 (first_row (qr_documents results)) i)
      as [t Ht]; [lia |].
    destruct (lookup_lt_is_Some_2 (metadata_row results (length ids0)) i)
      as [m Hm]; [lia |].
    destruct (lookup_lt_is_Some_2 (first_row (qr_distances results)) i)
      as [d Hd]; [lia |].
    rewrite (flatten_from_step results ids0 i n' Hids) by lia.
    unfold index. rewrite Hx, Ht, Hm, Hd. cbn [obind].
    rewrite (IH (S i)) by lia. cbn [obind].
    rewrite (drop_S _ _ _ Hx), (drop_S _ _ _ Ht), (drop_S _ _ _ Hm),
      (drop_S _ _ _ Hd).
    reflexivity.
Qed.

Lemma flatten_from_short (results : query_results distance)
    (ids0 : list pyval) :
  qr_ids results !! 0 = Some ids0 ->
  ∀ n' i j, i + n' = length ids0 -> (i ≤ j < length ids0)%nat ->
    first_row (qr_documents results) !! j = None
    ∨ metadata_row results (length ids0) !! j = None
    ∨ first_row (qr_distances results) !! j = None ->
    flatten_from results i n' = Raise IndexError.
Proof.
  intros Hids. induction n' as [| n' IH]; intros i j Hi Hj Hmiss; [lia |].
  rewrite (flatten_from_step results ids0 i n' Hids) by lia.
  destruct (lookup_lt_is_Some_2 ids0 i) as [x Hx]; [lia |].
  unfold index. rewrite Hx. cbn [obind].
  destruct (first_row (qr_documents results) !! i) as [t |] eqn:Ht;
    [| reflexivity].
  destruct (metadata_row results (length ids0) !! i) as [m |] eqn:Hm;
    [| reflexivity].
  destruct (first_row (qr_distances results) !! i) as [d |] eqn:Hd;
    [| reflexivity].
  cbn [obind].
  assert (Hne : j ≠ i).
  { intros ->. rewrite Ht, Hm, Hd in Hmiss.
    destruct Hmiss as [E | [E | E]]; discriminate E. }
  rewrite (IH (S i) j) by (first [lia | exact Hmiss]). reflexivity.
Qed.

Lemma length_zip_items (ids docs mds : list pyval) (ds : list distance) :
  (length ids ≤ length docs)%nat ->
  (length ids ≤ length mds)%nat ->
  (length ids ≤ length ds)%nat ->
  length (zip_items ids docs mds ds) = length ids.
Proof.
  revert docs mds ds.
  induction ids as [| i ids IH]; intros [| t docs] [| m mds] [| d ds];
    cbn; intros H1 H2 H3; try lia.
  rewrite IH by lia. reflexivity.
Qed.

(** X9.  The flattening loop indexes the first row of documents, of
    metadatas (when a metadata array was returned) and of distances with
    every position of the first row of ids.  It returns, with one item per
    id, exactly when each of those rows has at least as many entries as
    the row of ids (entries beyond are ignored); it raises IndexError when
    one of them is shorter, and when the answer has no row of ids at
    all. *)
Theorem flatten_index_bounds (results : query_results distance) :
  (qr_ids results = [] -> flatten results = Raise IndexError)
  ∧ ∀ ids0, qr_ids results !! 0 = Some ids0 ->
      let docs0 := first_row (qr_documents results) in
      let mds := metadata_row results (length ids0) in
      let dists0 := first_row (qr_distances results) in
      let enough := (length ids0 ≤ length docs0 ∧ length ids0 ≤ length mds
                     ∧ length ids0 ≤ length dists0)%nat in
      (enough ->
       flatten results = Return (zip_items ids0 docs0 mds dists0)
       ∧ length (zip_items ids0 docs0 mds dists0) = length ids0)
      ∧ (¬ enough -> flatten results = Raise IndexError).
Proof.
  split.
  - intros E. unfold flatten, index. rewrite E. reflexivity.
  - intros ids0 Hids docs0 mds dists0 enough. split.
    + intros (Ld & Lm & Lds). split; [| apply length_zip_items; assumption].
      unfold flatten, index. rewrite Hids. cbn [obind].
      rewrite (flatten_from_ok results ids0 Hids Ld Lm Lds (length ids0) 0)
        by lia.
      reflexivity.
    + intros Hshort. unfold flatten, index. rewrite Hids. cbn [obind].
      assert (Hj : ∃ j, (j < length ids0)%nat
                        ∧ (docs0 !! j = None ∨ mds !! j = None
                           ∨ dists0 !! j = None)).
      { destruct (decide (length ids0 ≤ length docs0)%nat) as [Ld |];
          [| exists (length docs0); split; [lia |];
             left; apply lookup_ge_None; lia ].
        destruct (decide (length ids0 ≤ length mds)%nat) as [Lm |];
          [| exists (length mds); split; [lia |];
             right; left; apply lookup_ge_None; lia ].
        destruct (decide (length ids0 ≤ length dists0)%nat) as [Lds |];
          [| exists (length dists0); split; [lia |];
             right; right; apply lookup_ge_None; lia ].
        exfalso. apply Hshort. repeat split; assumption. }
      destruct Hj as (j & Hlt & Hmiss).
      apply (flatten_from_short results ids0 Hids (length ids0) 0 j);
        [lia | lia | exact Hmiss].
Qed.
End Query_edges.

(* --------------------------------------------------------------------- *)
(** *** Batches: the id loop, and a batch of one *)
(* --------------------------------------------------------------------- *)

Section Batch_edges.
Context `{Collaborators}.

Lemma filled_has_no_none (n : nat) (text_ids : list pyval) :
  existsb is_none (filled n text_ids) = false.
Proof.
  revert n. induction text_ids as [| item rest IH]; intros n; [reflexivity |].
  cbn [filled]. destruct (is_none item) eqn:E; cbn [existsb is_none].
  - apply IH.
  - rewrite E. apply IH.
Qed.

(** X10.  The loop that completes a partly given list of ids (lines
    85-90) always returns: the list keeps its length, every id that was
    given stays where it was, no slot is [None] afterwards, and one UUID
    is drawn per slot that was [None], nothing else changing. *)
Theorem fill_ids_invariant (text_ids : list pyval) (w : world) :
  ∃ ids',
    fill_ids text_ids w = (Return ids', drawn w (count_none text_ids))
    ∧ length ids' = length text_ids
    ∧ existsb is_none ids' = false
    ∧ (∀ i v, text_ids !! i = Some v -> is_none v = false ->
         ids' !! i = Some v)
    ∧ (existsb is_none text_ids = false -> ids' = text_ids).
Proof.
  exists (filled (uuid_draws w) text_ids).
  split; [apply fill_ids_run |].
  split; [apply length_filled |].
  split; [apply filled_has_no_none |].
  split; [intros i v Hi Hv; apply filled_given_slot; assumption |].
  apply filled_no_none.
Qed.

(** X11.  A batch of one is the single insert: for a non-empty text, an
    id and metadata that is absent or a non-empty mapping,
    [batch_insert([s], [m], [k])] and [insert(s, m, k)] both return the id
    (the batch in a list) and leave the same collection. *)
Theorem batch_insert_of_one (s k : string) (metadata : pyval) (w : world) :
  s ≠ EmptyString ->
  is_metadata metadata = true ->
  metadata = PyNone ∨ py_truthy metadata = true ->
  (insert (PyStr s) metadata (PyStr k) w).1 = Return (PyStr k)
  ∧ (batch_insert (PyList [PyStr s]) (PyList [metadata]) (PyList [PyStr k]) w).1
    = Return (PyList [PyStr k])
  ∧ collection
      (batch_insert (PyList [PyStr s]) (PyList [metadata]) (PyList [PyStr k]) w).2
    = collection (insert (PyStr s) metadata (PyStr k) w).2.
Proof.
  intros Hs Hm Hmd.
  rewrite (insert_with_id s k metadata w Hs Hm). cbn [fst snd collection].
  split; [reflexivity |].
  assert (Hrun :
    batch_insert (PyList [PyStr s]) (PyList [metadata]) (PyList [PyStr k]) w
    = (Return (PyList [PyStr k]),
       World (<[k := Rec (Some (encode s)) (PyStr s) metadata]> (collection w))
             (uuid_draws w)
             (trace w ++ [Encode (PyList [PyStr s]);
                          Upsert (PyList [PyStr k]) (Some [encode s])
                                 (PyList [PyStr s]) (PyList [metadata])]))).
  { destruct metadata; try discriminate Hm;
      unfold batch_insert, len, embed_texts, coll_upsert, upsert_rows,
        bind, ret, raise, log, logged; cbn;
      rewrite !bool_decide_false by (intros Hn; apply Hn; reflexivity); cbn;
      rewrite <- app_assoc; reflexivity. }
  rewrite Hrun. cbn [fst snd collection]. split; [reflexivity |].
  destruct Hmd as [-> | ->]; reflexivity.
Qed.
End Batch_edges.

(* --------------------------------------------------------------------- *)
(** *** Switching the active collection *)
(* --------------------------------------------------------------------- *)

Section Collections.
Context `{Collaborators}.

Lemma get_or_create_same (n : string)
    (c : gmap string (gmap string (record embedding))) :
  default ∅ (get_or_create_collection n c !! n) = default ∅ (c !! n).
Proof.
  unfold get_or_create_collection. destruct (c !! n) eqn:E.
  - rewrite E. reflexivity.
  - rewrite lookup_insert_eq. reflexivity.
Qed.

Lemma get_or_create_other (n n' : string)
    (c : gmap string (gmap string (record embedding))) :
  n ≠ n' ->
  get_or_create_collection n c !! n' = c !! n'.
Proof.
  intros Hne. unfold get_or_create_collection. destruct (c !! n); [reflexivity |].
  apply lookup_insert_ne, Hne.
Qed.

Lemma on_collection_get (k : string) (d : db) :
  (on_collection (get (PyStr k)) d).1
  = match default ∅ (client d !! handle d) !! k with
    | Some r => Return (Entry (PyStr k) (rec_document r) (rec_metadata r))
    | None => Raise (ValueError (NoEntryFound (PyStr k)))
    end.
Proof. unfold on_collection. cbn [fst]. apply get_result. Qed.

(** X12.  Records belong to the collection that was active when they were
    written.  After an [insert] into the active collection, switching to
    another collection with [set_collection] shows what that collection
    showed before (the new record is not there), and switching back shows
    the record: [set_collection] on a collection that exists does not
    empty it. *)
Theorem collections_are_separate (d : db) (other s k : string)
    (metadata : pyval) :
  handle d ≠ other ->
  s ≠ EmptyString ->
  is_metadata metadata = true ->
  let d1 := (on_collection (insert (PyStr s) metadata (PyStr k)) d).2 in
  (on_collection (get (PyStr k)) (set_collection other d1)).1
  = (on_collection (get (PyStr k)) (set_collection other d)).1
  ∧ (on_collection (get (PyStr k))
       (set_collection (handle d) (set_collection other d1))).1
    = Return (Entry (PyStr k) (PyStr s)
                    (if py_truthy metadata then metadata else PyNone)).
Proof.
  intros Hne Hs Hm d1.
  assert (Hc1 : client d1
                = <[handle d :=
                      <[k := Rec (Some (encode s)) (PyStr s)
                               (if py_truthy metadata then metadata else PyNone)]>
                        (default ∅ (client d !! handle d))]> (client d)).
  { subst d1. unfold on_collection.
    rewrite (insert_with_id s k metadata (active_world d) Hs Hm). reflexivity. }
  split.
  - rewrite !on_collection_get. unfold set_collection. cbn [client handle].
    rewrite !get_or_create_same, Hc1.
    rewrite lookup_insert_ne by exact Hne. reflexivity.
  - rewrite on_collection_get. unfold set_collection. cbn [client handle].
    rewrite get_or_create_same.
    rewrite get_or_create_other by (intros E; apply Hne; symmetry; exact E).
    rewrite Hc1, lookup_insert_eq. cbn [default id].
    rewrite lookup_insert_eq. reflexivity.
Qed.
End Collections.

(* --------------------------------------------------------------------- *)
(** *** What a call of [batch_insert] that returns has returned *)
(* --------------------------------------------------------------------- *)

Section Batch_return.
Context `{Collaborators}.

Lemma bind_inv {A B} (m : py A) (k : A -> py B) (w w' : world) (b : B) :
  bind m k w = (Return b, w') ->
  ∃ a w1, m w = (Return a, w1) ∧ k a w1 = (Return b, w').
Proof.
  unfold bind. destruct (m w) as [[a | e] w1]; [| discriminate].
  intros E. exists a, w1. split; [reflexivity | exact E].
Qed.

Lemma ids_from_no_none (n len : nat) : existsb is_none (ids_from n len) = false.
Proof.
  unfold ids_from. generalize (seq n len).
  intros l. induction l; [reflexivity | exact IHl].
Qed.

Lemma length_ids_from (n len : nat) : length (ids_from n len) = len.
Proof. unfold ids_from. rewrite length_fmap. apply length_seq. Qed.

(** lines 79-82, read backwards *)
Lemma given_ids_inv (ts : list pyval) (text_ids a : pyval) (w w1 : world) :
  (if is_none text_ids
   then ids <- fresh_ids ts ;; ret (PyList ids)
   else n <- len text_ids ;;
        if bool_decide (n ≠ length ts)
        then raise (ValueError TextIdsLength)
        else ret text_ids) w = (Return a, w1) ->
  (text_ids = PyNone ∧ a = PyList (ids_from (uuid_draws w) (length ts)))
  ∨ (is_none text_ids = false ∧ a = text_ids ∧ w1 = w
     ∧ py_len text_ids = Some (length ts)).
Proof.
  destruct (is_none text_ids) eqn:En.
  - destruct text_ids; try discriminate En.
    unfold bind. rewrite fresh_ids_run. unfold ret. intros E.
    injection E as <- _. left. split; reflexivity.
  - unfold len, bind. destruct (py_len text_ids) as [n |]; [| discriminate].
    unfold ret at 1. destruct (bool_decide (n ≠ length ts)) eqn:Eb;
      [discriminate |].
    unfold ret. intros E. injection E as <- <-. right.
    apply bool_decide_eq_false in Eb. apply dec_stable in Eb. subst n.
    repeat split.
Qed.

(** lines 85-90, read backwards *)
Lemma filled_ids_inv (a b : pyval) (w1 w2 : world) :
  (match a with
   | PyList ids =>
       if existsb is_none ids
       then ids' <- fill_ids ids ;; ret (PyList ids')
       else ret a
   | _ => ret a
   end) w1 = (Return b, w2) ->
  b = match a with
      | PyList ids => PyList (filled (uuid_draws w1) ids)
      | v => v
      end.
Proof.
  destruct a as [ | | | | | ids | ]; try (intros E; injection E as <- _; reflexivity).
  destruct (existsb is_none ids) eqn:Ex.
  - unfold bind. rewrite fill_ids_run. unfold ret. intros E.
    injection E as <- _. reflexivity.
  - rewrite (filled_no_none _ _ Ex). intros E. injection E as <- _.
    reflexivity.
Qed.

Lemma coll_upsert_trace (ids documents metadatas : pyval)
    (embeddings : option (list embedding)) (w w' : world) :
  coll_upsert ids embeddings documents metadatas w = (Return tt, w') ->
  trace w' = (trace w ++ [Upsert ids embeddings documents metadatas])%list.
Proof.
  unfold coll_upsert, bind, log, logged.
  destruct (upsert_rows ids embeddings documents metadatas);
    [| discriminate].
  intros E. injection E as <-. reflexivity.
Qed.

(** X14.  A call of [batch_insert] that returns was given a non-empty
    list as texts, and what it returns is the ids it went on with after
    lines 79-90: the strings of the UUIDs it drew when no ids were given,
    the list given with every absent slot replaced by a drawn UUID when a
    list was given, the value given as it is otherwise (a string of as
    many characters as there are texts, say).  That value has one element
    per text, and it is the [ids] of the upsert that was the last call
    made on a collaborator. *)
Theorem batch_insert_returns_ids (texts metadatas text_ids r : pyval)
    (w w' : world) :
  batch_insert texts metadatas text_ids w = (Return r, w') ->
  ∃ ts es ms,
    texts = PyList ts
    ∧ ts ≠ []
    ∧ r = resolved_ids (uuid_draws w) (length ts) text_ids
    ∧ py_len r = Some (length ts)
    ∧ last (trace w') = Some (Upsert r (Some es) texts ms).
Proof.
  intros E.
  destruct texts as [ | | | | | [| t ts0] | ]; try discriminate E.
  set (ts := t :: ts0) in *. unfold batch_insert in E.
  change (match PyList ts with
          | PyList ((_ :: _) as l) => ?f l
          | _ => ?g
          end) with (f ts) in E.
  apply bind_inv in E as (a & w1 & E1 & E).
  apply bind_inv in E as (b & w2 & E2 & E).
  apply bind_inv in E as (es & w3 & _ & E).
  apply bind_inv in E as (ms & w4 & _ & E).
  apply bind_inv in E as ([] & w5 & Eu & E).
  injection E as <- <-.
  apply filled_ids_inv in E2.
  exists ts, es, ms.
  split; [reflexivity | split; [discriminate |]].
  assert (Hb : b = resolved_ids (uuid_draws w) (length ts) text_ids
               ∧ py_len b = Some (length ts)).
  { destruct (given_ids_inv ts text_ids a w w1 E1)
      as [[-> ->] | (En & -> & -> & Hl)].
    - rewrite (filled_no_none _ _ (ids_from_no_none _ _)) in E2. subst b.
      cbn [resolved_ids py_len]. rewrite length_ids_from.
      split; reflexivity.
    - subst b. destruct text_ids; try discriminate En;
        cbn [resolved_ids py_len]; (split; [reflexivity |]);
        try exact Hl.
      rewrite length_filled. exact Hl. }
  destruct Hb as [Hb Hl].
  split; [exact Hb | split; [exact Hl |]].
  rewrite (coll_upsert_trace _ _ _ _ _ _ Eu). apply last_snoc.
Qed.
End Batch_return.

(* --------------------------------------------------------------------- *)
(** *** The further properties on concrete runs *)
(* --------------------------------------------------------------------- *)

Section Runs_further.
Import Demo.

(* X1: db.insert("") on the collection holding "a" *)
Lemma failed_call_keeps_collection_witness :
  (insert (PyStr EmptyString) PyNone PyNone w_alice).1
  = Raise (ValueError TextEmpty)
  ∧ collection (insert (PyStr EmptyString) PyNone PyNone w_alice).2
    = collection w_alice.
Proof.
  split; [reflexivity |].
  destruct (failed_call_keeps_collection (PyStr EmptyString) PyNone PyNone 5
              w_alice) as (Hi & _).
  apply (Hi (ValueError TextEmpty)). reflexivity.
Defined.

(* X2: db.insert("hello", metadata={"name": "Alice"}) *)
Lemma insert_writes_one_record_witness :
  is_list (PyStr "hello") && is_list alice && is_list PyNone = false
  ∧ ∃ r w' k rcd,
      insert (PyStr "hello") alice PyNone w0 = (Return r, w')
      ∧ r = PyStr k
      ∧ collection w' = <[k := rcd]> (collection w0)
      ∧ rec_document rcd = PyStr "hello"
      ∧ rec_metadata rcd = (if py_truthy alice then alice else PyNone).
Proof.
  split; [reflexivity |].
  assert (E : insert (PyStr "hello") alice PyNone w0
              = (Return (PyStr "00000000-0000-0000-0000-000000000000"),
                 (insert (PyStr "hello") alice PyNone w0).2))
    by (vm_compute; reflexivity).
  destruct (insert_writes_one_record (PyStr "hello") alice PyNone _ w0 _
              eq_refl E)
    as (k & rcd & Hr & _ & Hc & Hd & Hm & _).
  eexists _, _, k, rcd.
  split; [exact E | split; [exact Hr | split; [exact Hc |
    split; [exact Hd | exact Hm]]]].
Defined.

(* X4: db.delete("a") on the collection holding "a" *)
Lemma delete_then_get_witness :
  (get (PyStr "a") w_alice).1 = Return (Entry (PyStr "a") (PyStr "hello") alice)
  ∧ (delete (PyStr "a") w_alice).1 = Return tt
  ∧ (get (PyStr "a") (delete (PyStr "a") w_alice).2).1
    = Raise (ValueError (NoEntryFound (PyStr "a"))).
Proof.
  split; [vm_compute; reflexivity |].
  destruct (delete_then_get "a" w_alice) as (Hd & Hg & _).
  split; [exact Hd | exact Hg].
Defined.

(* X5 *)
Lemma insert_then_delete_witness :
  collection w0 !! "a" = None
  ∧ "hello" ≠ EmptyString
  ∧ is_metadata alice = true
  ∧ collection (delete (PyStr "a") (insert (PyStr "hello") alice (PyStr "a") w0).2).2
    = collection w0.
Proof.
  assert (Hk : collection w0 !! "a" = None) by (vm_compute; reflexivity).
  assert (Hs : "hello" ≠ EmptyString) by discriminate.
  split; [exact Hk | split; [exact Hs | split; [reflexivity |]]].
  exact (insert_then_delete "hello" "a" alice w0 Hk Hs eq_refl).
Defined.

(* X8: db.query("bbb", top_k=2, where={}) *)
Lemma query_filter_passthrough_witness :
  py_truthy (PyDict ∅) = false
  ∧ query (PyStr "bbb") 2 (PyDict ∅) w_two = query (PyStr "bbb") 2 PyNone w_two.
Proof.
  assert (Hf : py_truthy (PyDict ∅) = false) by (vm_compute; reflexivity).
  split; [exact Hf |].
  destruct (query_filter_passthrough (PyStr "bbb") "bbb" 2 (PyDict ∅) w_two)
    as [Hq _].
  exact (Hq Hf).
Defined.

(* X9: a well-formed answer, and one with a short row of documents *)
Lemma flatten_index_bounds_witness :
  qr_ids answer !! 0 = Some [PyStr "j"; PyStr "i"]
  ∧ (∃ items, flatten answer = Return items ∧ length items = 2)
  ∧ qr_ids ragged !! 0 = Some [PyStr "j"; PyStr "i"]
  ∧ flatten ragged = Raise IndexError.
Proof.
  split; [reflexivity |].
  destruct (flatten_index_bounds answer) as [_ Ha].
  destruct (Ha [PyStr "j"; PyStr "i"] eq_refl) as [Hok _].
  destruct Hok as [Hf Hl]; [cbn; lia |].
  split; [eexists; split; [exact Hf | exact Hl] |].
  split; [reflexivity |].
  destruct (flatten_index_bounds ragged) as [_ Hr].
  destruct (Hr [PyStr "j"; PyStr "i"] eq_refl) as [_ Hshort].
  apply Hshort. cbn. lia.
Defined.

(* X10: text_ids=["x", None] *)
Lemma fill_ids_invariant_witness :
  ∃ ids', (fill_ids [PyStr "x"; PyNone] w0).1 = Return ids'
          ∧ length ids' = 2
          ∧ ids' !! 0 = Some (PyStr "x")
          ∧ existsb is_none ids' = false.
Proof.
  destruct (fill_ids_invariant [PyStr "x"; PyNone] w0)
    as (ids' & Hr & Hl & Hn & Hk & _).
  exists ids'. rewrite Hr.
  split; [reflexivity | split; [exact Hl | split; [| exact Hn]]].
  apply (Hk 0 (PyStr "x")); reflexivity.
Defined.

(* X11 *)
Lemma batch_insert_of_one_witness :
  "hello" ≠ EmptyString
  ∧ is_metadata alice = true
  ∧ (alice = PyNone ∨ py_truthy alice = true)
  ∧ collection
      (batch_insert (PyList [PyStr "hello"]) (PyList [alice]) (PyList [PyStr "a"])
         w0).2
    = collection (insert (PyStr "hello") alice (PyStr "a") w0).2.
Proof.
  assert (Hs : "hello" ≠ EmptyString) by discriminate.
  assert (Ht : alice = PyNone ∨ py_truthy alice = true)
    by (right; vm_compute; reflexivity).
  split; [exact Hs | split; [reflexivity | split; [exact Ht |]]].
  destruct (batch_insert_of_one "hello" "a" alice w0 Hs eq_refl Ht)
    as (_ & _ & Hc).
  exact Hc.
Defined.

(* X12: insert into "interests", look from "archive", come back *)
Lemma collections_are_separate_witness :
  handle d0 ≠ "archive"
  ∧ "hello" ≠ EmptyString
  ∧ is_metadata alice = true
  ∧ (let d1 := (on_collection (insert (PyStr "hello") alice (PyStr "a")) d0).2 in
     (on_collection (get (PyStr "a")) (set_collection "archive" d1)).1
     = Raise (ValueError (NoEntryFound (PyStr "a")))
     ∧ (on_collection (get (PyStr "a"))
          (set_collection "interests" (set_collection "archive" d1))).1
       = Return (Entry (PyStr "a") (PyStr "hello") alice)).
Proof.
  assert (Hn : handle d0 ≠ "archive") by discriminate.
  assert (Hs : "hello" ≠ EmptyString) by discriminate.
  split; [exact Hn | split; [exact Hs | split; [reflexivity |]]].
  destruct (collections_are_separate d0 "archive" "hello" "a" alice
              Hn Hs eq_refl) as [Ho Hb].
  cbv zeta. split.
  - rewrite Ho. vm_compute. reflexivity.
  - exact Hb.
Defined.

(* X13: db.batch_insert(["first", "second"], text_ids=["x", "y"]) *)
Lemma batch_insert_then_get_witness :
  ["first"; "second"] ≠ []
  ∧ NoDup ["x"; "y"]
  ∧ (∀ k, k ∈ ["x"; "y"] -> collection w0 !! k = None)
  ∧ ∃ w',
      batch_insert (PyList [PyStr "first"; PyStr "second"]) PyNone
                   (PyList [PyStr "x"; PyStr "y"]) w0
      = (Return (PyList [PyStr "x"; PyStr "y"]), w')
      ∧ (get (PyStr "y") w').1
        = Return (Entry (PyStr "y") (PyStr "second") PyNone).
Proof.
  assert (Hss : ["first"; "second"] ≠ []) by discriminate.
  assert (Hnd : NoDup ["x"; "y"])
    by (apply (bool_decide_unpack (NoDup ["x"; "y"])); vm_compute; exact I).
  assert (Hnew : ∀ k, k ∈ ["x"; "y"] -> collection w0 !! k = None)
    by (intros k _; apply lookup_empty).
  split; [exact Hss | split; [exact Hnd | split; [exact Hnew |]]].
  destruct (batch_insert_then_get ["first"; "second"] ["x"; "y"]
              (replicate 2 PyNone) PyNone (PyList [PyStr "x"; PyStr "y"]) w0
              Hss (or_intror (conj eq_refl eq_refl))
              (or_introl (conj eq_refl eq_refl)) Hnd Hnew)
    as (w' & Hr & _ & Hg).
  exists w'. split; [exact Hr |].
  apply (Hg 1 "y" "second" PyNone); reflexivity.
Defined.

(* X14: db.batch_insert(["first", "second"]) *)
Lemma batch_insert_returns_ids_witness :
  ∃ w' es ms,
    batch_insert (PyList [PyStr "first"; PyStr "second"]) PyNone PyNone w0
    = (Return (PyList [PyStr "00000000-0000-0000-0000-000000000000";
                       PyStr "00000000-0000-0000-0000-000000000001"]), w')
    ∧ last (trace w')
      = Some (Upsert (PyList [PyStr "00000000-0000-0000-0000-000000000000";
                              PyStr "00000000-0000-0000-0000-000000000001"])
                     (Some es) (PyList [PyStr "first"; PyStr "second"]) ms).
Proof.
  assert (E : batch_insert (PyList [PyStr "first"; PyStr "second"]) PyNone PyNone w0
              = (Return (PyList [PyStr "00000000-0000-0000-0000-000000000000";
                                 PyStr "00000000-0000-0000-0000-000000000001"]),
                 (batch_insert (PyList [PyStr "first"; PyStr "second"])
                    PyNone PyNone w0).2))
    by (vm_compute; reflexivity).
  destruct (batch_insert_returns_ids _ _ _ _ _ _ E)
    as (ts & es & ms & _ & _ & _ & _ & Hl).
  exists (batch_insert (PyList [PyStr "first"; PyStr "second"]) PyNone PyNone w0).2,
    es, ms.
  split; [exact E | exact Hl].
Defined.
End Runs_further.
